(** * hosts-manager: the hosts document editor

    A shallow embedding of [src/hosts_manager/editor.py] (class [HostsEditor])
    and of the command handlers of [src/hosts_manager/cli.py] that use what
    [toggle_section] and [search_entries] return.

    - A Python [str] is a list of Unicode code points ([list N]).
    - The editor object, the two files it touches and what it prints are one
      record, [world], passed explicitly from call to call.
    - [None] is [option]'s [None]; truthiness ([if x], [x or y]) is written out. *)

From Stdlib Require Import NArith Ascii String.
From stdpp Require Import base tactics option numbers list.

Set Default Proof Using "Type".

(** ** Python strings *)

Abbreviation pystr := (list N).

Module PyStr.

(** A Rocq string literal read as ASCII code points. *)
Fixpoint str (s : string) : pystr :=
  match s with
  | EmptyString => []
  | String a r => N_of_ascii a :: str r
  end.

Definition TAB : N := 9%N.
Definition LF : N := 10%N.
Definition CR : N := 13%N.
Definition SPACE : N := 32%N.
Definition HASH : N := 35%N.

(** [str.isspace] on one code point, which is also the class [\s] of [re]
    on [str] patterns: the code points CPython lists as whitespace. *)
Definition isspace (c : N) : bool :=
  ((9 <=? c) && (c <=? 13) || (28 <=? c) && (c <=? 32)
   || (c =? 133) || (c =? 160) || (c =? 5760)
   || (8192 <=? c) && (c <=? 8202)
   || (c =? 8232) || (c =? 8233) || (c =? 8239) || (c =? 8287)
   || (c =? 12288))%N.

(** The line boundaries of [str.splitlines]. *)
Definition islinebreak (c : N) : bool :=
  ((10 <=? c) && (c <=? 13) || (28 <=? c) && (c <=? 30)
   || (c =? 133) || (c =? 8232) || (c =? 8233))%N.

(** [s.lstrip(chars)], [s.rstrip(chars)], [s.strip(chars)] with the set of
    characters given as a predicate. *)
Fixpoint lstrip_with (p : N -> bool) (s : pystr) : pystr :=
  match s with
  | c :: r => if p c then lstrip_with p r else s
  | [] => []
  end.

Definition rstrip_with (p : N -> bool) (s : pystr) : pystr :=
  reverse (lstrip_with p (reverse s)).

Definition strip_with (p : N -> bool) (s : pystr) : pystr :=
  rstrip_with p (lstrip_with p s).

(** [s.strip()] *)
Definition strip (s : pystr) : pystr := strip_with isspace s.

(** [s.strip("#")] *)
Definition strip_hash (s : pystr) : pystr := strip_with (N.eqb HASH) s.

(** [s.startswith(p)] *)
Fixpoint startswith (p s : pystr) : bool :=
  match p, s with
  | [], _ => true
  | a :: p', b :: s' => (a =? b)%N && startswith p' s'
  | _ :: _, [] => false
  end.

(** [s.endswith(p)] *)
Definition endswith (p s : pystr) : bool :=
  startswith (reverse p) (reverse s).

(** [sub in s] for two strings. *)
Fixpoint contains (sub s : pystr) : bool :=
  startswith sub s ||
  match s with
  | [] => false
  | _ :: r => contains sub r
  end.

(** [s.split(c)[0]]: the text before the first [c]. *)
Fixpoint before_first (c : N) (s : pystr) : pystr :=
  match s with
  | [] => []
  | a :: r => if (a =? c)%N then [] else a :: before_first c r
  end.

(** [sep.join(ls)] *)
Fixpoint join (sep : pystr) (ls : list pystr) : pystr :=
  match ls with
  | [] => []
  | [l] => l
  | l :: r => l ++ sep ++ join sep r
  end.

(** [s.splitlines()]: [cur] is the current line, newest character first;
    [skip_lf] says that the previous character was a carriage return, so
    that a line feed right after it belongs to the same boundary.  A last
    line is produced only when it is not empty. *)
Fixpoint splitlines_from (skip_lf : bool) (cur s : pystr) : list pystr :=
  match s with
  | [] => match cur with [] => [] | _ => [reverse cur] end
  | c :: r =>
      if skip_lf && (c =? LF)%N then splitlines_from false cur r
      else if islinebreak c then reverse cur :: splitlines_from (c =? CR)%N [] r
      else splitlines_from false (c :: cur) r
  end.

Definition splitlines (s : pystr) : list pystr := splitlines_from false [] s.

(** Reading in text mode with universal newlines: CR LF and a lone CR
    both come back as LF. *)
Fixpoint universal_newlines (skip_lf : bool) (s : pystr) : pystr :=
  match s with
  | [] => []
  | c :: r =>
      if skip_lf && (c =? LF)%N then universal_newlines false r
      else if (c =? CR)%N then LF :: universal_newlines true r
      else c :: universal_newlines false r
  end.

(** [re.sub(r"^#\s*", "", s)]: without [re.MULTILINE] the pattern matches
    at most once, at the start of [s]. *)
Definition re_sub_hash (s : pystr) : pystr :=
  match s with
  | c :: r => if (c =? HASH)%N then lstrip_with isspace r else s
  | [] => []
  end.

(** The characters of ["0123456789"]. *)
Definition digits : pystr := str "0123456789".

(** Truthiness of a string and of a list: not empty. *)
Definition truthy {A} (l : list A) : bool :=
  match l with [] => false | _ => true end.

End PyStr.
Import PyStr.

(** [str.lower], [str.upper] and [str.isupper] follow the Unicode character
    database; the editor is verified for any such three functions. *)
Class UnicodeCase := {
  lower : pystr -> pystr;
  upper : pystr -> pystr;
  isupper : pystr -> bool
}.

(** The three functions on ASCII text, for concrete documents. *)
Module Ascii_case.

Definition is_upper_char (c : N) : bool := ((65 <=? c) && (c <=? 90))%N.
Definition is_lower_char (c : N) : bool := ((97 <=? c) && (c <=? 122))%N.

Definition lower_char (c : N) : N := if is_upper_char c then (c + 32)%N else c.
Definition upper_char (c : N) : N := if is_lower_char c then (c - 32)%N else c.

Definition ascii_lower (s : pystr) : pystr := map lower_char s.
Definition ascii_upper (s : pystr) : pystr := map upper_char s.

(** At least one cased character, and no lower-case one. *)
Definition ascii_isupper (s : pystr) : bool :=
  existsb is_upper_char s && negb (existsb is_lower_char s).

End Ascii_case.

#[export] Instance ascii_case : UnicodeCase := {|
  lower := Ascii_case.ascii_lower;
  upper := Ascii_case.ascii_upper;
  isupper := Ascii_case.ascii_isupper
|}.

(** The encoding [write_text] takes when none is given is that of the
    locale, with strict error handling: the text is written only if all of it
    can be encoded.  The editor is verified for any such encoding. *)
Class LocaleEncoding := {
  encodable : pystr -> bool
}.

(** UTF-8 takes every code point up to U+10FFFF except the surrogates
    U+D800 to U+DFFF, which a string holds when an argument of the command
    line was not valid in the locale. *)
Definition utf8_encodable (s : pystr) : bool :=
  forallb (fun c => (c <? 55296)%N || (57343 <? c)%N && (c <=? 1114111)%N) s.

#[export] Instance utf8 : LocaleEncoding := {|
  encodable := utf8_encodable
|}.

(** ** The editor, its files and its output *)

(** What [print] shows, one constructor per message of the source. *)
Inductive message :=
  | MsgNoChangesToApply                             (* "No changes to apply" *)
  | MsgProposedChanges (old new : list pystr)       (* "Proposed changes:" and the diff *)
  | MsgChangesDiscarded                             (* "Changes discarded" *)
  | MsgChangesApplied (backup_path : pystr)         (* "Changes applied (backup at ...)" *)
  | MsgSectionsFound (sections : list (pystr * list pystr))
  | MsgNoSectionsFound                              (* "No sections found" *)
  | MsgNoEntryFound (hostname : pystr)              (* "No entry found for ..." *)
  | MsgNoActiveEntry (hostname : pystr)             (* "No active entry found for ..." *)
  | MsgNoCommentedEntry (hostname : pystr)          (* "No commented entry found for ..." *)
  | MsgSearchHit (i : nat) (line : pystr)           (* "{i:03}: {line}" *)
  | MsgNoResults (query : option pystr)             (* "No results for '...'" *)
  | MsgSectionNotFound (section : pystr)            (* "Section '...' not found" *)
  | MsgNoChangesForSite (site section : pystr)      (* "No changes needed for site '...' in section '...'" *)
  | MsgNoChangesForSection (section : pystr)        (* "No changes needed for section '...'" *)
  | MsgDisabledEntries (updated : nat) (section : pystr) (site : option pystr)
  | MsgEnabledEntries (updated : nat) (section : pystr) (site : option pystr).

(** What the editor does to the outside, in the order it does it. *)
Inductive event :=
  | EvPrint (m : message)
  | EvInput                                         (* input("Apply these changes? [y/N]: ") *)
  | EvCopy2 (src dst : pystr)                       (* copy2(self.path, backup_path) *)
  | EvWriteText (target text : pystr).              (* self.path.write_text(text) *)

Record world := World {
  w_path : pystr;            (* self.path *)
  w_lines : list pystr;      (* self.lines, the baseline *)
  w_file : pystr;            (* the text stored at self.path *)
  w_backup : option pystr;   (* the text stored at "{self.path}.bak", when that file exists *)
  w_trace : list event       (* oldest event first *)
}.

Definition emit (e : event) (w : world) : world :=
  World (w_path w) (w_lines w) (w_file w) (w_backup w) (w_trace w ++ [e]).

Definition backup_path (w : world) : pystr := w_path w ++ str ".bak".

(** [copy2(self.path, backup_path)] *)
Definition copy2 (w : world) : world :=
  emit (EvCopy2 (w_path w) (backup_path w))
       (World (w_path w) (w_lines w) (w_file w) (Some (w_file w)) (w_trace w)).

(** [self.path.write_text(text)] on a POSIX system, where the newline written
    is the line feed itself.  This is the call when the text can be encoded;
    the call as the program makes it, which raises when it cannot, is
    [write_text_raising] below. *)
Definition write_text (text : pystr) (w : world) : world :=
  emit (EvWriteText (w_path w) text)
       (World (w_path w) (w_lines w) text (w_backup w) (w_trace w)).

(** [self.lines = new_lines] *)
Definition set_lines (new_lines : list pystr) (w : world) : world :=
  World (w_path w) new_lines (w_file w) (w_backup w) (w_trace w).

(** The value a method hands back: [None] when it falls off its end. *)
Inductive pyval :=
  | PyNone
  | PyInt (n : nat).

Definition py_truthy (v : pyval) : bool :=
  match v with
  | PyNone => false
  | PyInt n => negb (n =? 0)
  end.

Inductive exn := TypeError | UnicodeEncodeError.

(** How a call ends: it returns, or an exception leaves it. *)
Inductive outcome :=
  | Returned (w : world)
  | Raised (e : exn) (w : world).

(** [self.path.read_text()] then [.splitlines()] *)
Definition read_lines (text : pystr) : list pystr :=
  splitlines (universal_newlines false text).

Definition _read_file (w : world) : list pystr := read_lines (w_file w).

(** [HostsEditor(path)] on a path that exists and holds [text]. *)
Definition HostsEditor (path text : pystr) (backup : option pystr) : world :=
  World path (read_lines text) text backup [].

(** The text [_write_file] hands to [write_text]: ["\n".join(new_lines) + "\n"]. *)
Definition file_text (new_lines : list pystr) : pystr :=
  join [LF] new_lines ++ [LF].

Section Editor.
Context `{UC : UnicodeCase}.

(** [difflib.unified_diff] yields nothing exactly when the two sequences are
    equal (every opcode is then "equal"); otherwise it yields at least the
    header of one hunk.  The preview itself is one message. *)
Definition _show_diff (new_lines : list pystr) (w : world) : bool * world :=
  if bool_decide (w_lines w = new_lines)
  then (false, emit (EvPrint MsgNoChangesToApply) w)
  else (true, emit (EvPrint (MsgProposedChanges (w_lines w) new_lines)) w).

(** [new_lines or self.lines]: [None] and the empty list are both falsy. *)
Definition or_lines (new_lines : option (list pystr)) (w : world) : list pystr :=
  match new_lines with
  | Some (l :: r) => l :: r
  | Some [] | None => w_lines w
  end.

(** [answer] is what [input] returns if it is called. *)
Definition _write_file (new_lines : option (list pystr)) (answer : pystr)
    (w : world) : world :=
  let new_lines := or_lines new_lines w in
  let '(has_changes, w) := _show_diff new_lines w in
  if negb has_changes then w
  else
    let w := emit EvInput w in
    let confirm := lower (strip answer) in
    if negb (bool_decide (confirm = str "y")) then emit (EvPrint MsgChangesDiscarded) w
    else
      let w := copy2 w in
      let w := write_text (file_text new_lines) w in
      let w := set_lines new_lines w in
      emit (EvPrint (MsgChangesApplied (backup_path w))) w.

Fixpoint find_section_from (section : pystr) (idx : nat) (ls : list pystr)
    : option nat :=
  match ls with
  | [] => None
  | line :: r =>
      if bool_decide (lower (strip line) = lower (str "# " ++ section))
      then Some idx
      else find_section_from section (S idx) r
  end.

Definition _find_section_index (section : pystr) (w : world) : option nat :=
  find_section_from section 0 (w_lines w).

(** [s.startswith("#") and s.endswith("#") and len(s) > 2] *)
Definition header_form (stripped_line : pystr) : bool :=
  startswith [HASH] stripped_line && endswith [HASH] stripped_line
  && (2 <? length stripped_line).

(** [any(s.startswith(d) for d in "0123456789")] *)
Definition starts_with_digit (s : pystr) : bool :=
  existsb (fun d => startswith [d] s) digits.

(** [any(s.startswith(f"# {d}") for d in "0123456789")] *)
Definition starts_with_hash_digit (s : pystr) : bool :=
  existsb (fun d => startswith (str "# " ++ [d]) s) digits.

(** [stripped_line[1:].split("#")[0].strip()] *)
Definition site_name_of (stripped_line : pystr) : pystr :=
  strip (before_first HASH (drop 1 stripped_line)).

(** *** list_sections *)

Record scan := Scan {
  sections : list (pystr * list pystr);
  current_section : option pystr;
  current_sites : list pystr
}.

(** One turn of the loop of [list_sections]. *)
Definition list_sections_step (st : scan) (line : pystr) : scan :=
  let stripped_line := strip line in
  if header_form stripped_line then
    let section_name := strip (strip_hash stripped_line) in
    if truthy section_name && isupper section_name then
      match current_section st with
      | Some (c :: cs) =>
          Scan (sections st ++ [(c :: cs, current_sites st)]) (Some section_name) []
      | Some [] | None =>
          Scan (sections st) (Some section_name) (current_sites st)
      end
    else st
  else if startswith [HASH] stripped_line
          && negb (startswith [HASH; HASH] stripped_line) then
    let site_name := site_name_of stripped_line in
    if truthy site_name && negb (starts_with_digit site_name)
       && from_option truthy false (current_section st)
    then Scan (sections st) (current_section st) (current_sites st ++ [site_name])
    else st
  else st.

(** The list [sections] as it stands when [list_sections] prints it. *)
Definition scan_sections (ls : list pystr) : list (pystr * list pystr) :=
  let st := foldl list_sections_step (Scan [] None []) ls in
  match current_section st with
  | Some (c :: cs) => sections st ++ [(c :: cs, current_sites st)]
  | Some [] | None => sections st
  end.

Definition list_sections (w : world) : world :=
  match scan_sections (w_lines w) with
  | [] => emit (EvPrint MsgNoSectionsFound) w
  | s :: r => emit (EvPrint (MsgSectionsFound (s :: r))) w
  end.

(** *** add_entry *)

Definition new_entry (ip hostname : pystr) (comment : option pystr) : pystr :=
  let entry := ip ++ [TAB] ++ hostname in
  match comment with
  | Some (c :: cs) => entry ++ str "  # " ++ (c :: cs)
  | Some [] | None => entry
  end.

(** [new_lines.insert(i, x)] for [i >= 0]: past the end it appends. *)
Definition list_insert_at {A} (i : nat) (x : A) (l : list A) : list A :=
  take i l ++ x :: drop i l.

(** The sequence [add_entry] hands to [_write_file]. *)
Definition add_entry_lines (ip hostname : pystr) (section comment : option pystr)
    (w : world) : list pystr :=
  let new_lines := w_lines w in
  let entry := new_entry ip hostname comment in
  match section with
  | Some (c :: cs) =>
      let section := c :: cs in
      match _find_section_index section w with
      | None => (new_lines ++ [LF :: str "# " ++ section]) ++ [entry]
      | Some idx => list_insert_at (idx + 1) entry new_lines
      end
  | Some [] | None => new_lines ++ [entry]
  end.


(** *** delete_entry *)

Definition delete_entry (hostname answer : pystr) (w : world) : world :=
  let new_lines := filter (fun l => negb (contains hostname l)) (w_lines w) in
  if bool_decide (new_lines = w_lines w)
  then emit (EvPrint (MsgNoEntryFound hostname)) w
  else _write_file (Some new_lines) answer w.

(** *** comment_entry and uncomment_entry *)

(** One turn of the loop of [comment_entry], on the pair of [new_lines] and
    [updated]. *)
Definition comment_step (hostname : pystr) (acc : list pystr * bool)
    (line : pystr) : list pystr * bool :=
  let '(new_lines, updated) := acc in
  if contains hostname line && negb (startswith [HASH] (strip line))
  then (new_lines ++ [str "# " ++ line], true)
  else (new_lines ++ [line], updated).

Definition comment_lines (hostname : pystr) (ls : list pystr) : list pystr * bool :=
  foldl (comment_step hostname) ([], false) ls.

Definition comment_entry (hostname answer : pystr) (w : world) : world :=
  let '(new_lines, updated) := comment_lines hostname (w_lines w) in
  if updated then _write_file (Some new_lines) answer w
  else emit (EvPrint (MsgNoActiveEntry hostname)) w.

(** One turn of the loop of [uncomment_entry]. *)
Definition uncomment_step (hostname : pystr) (acc : list pystr * bool)
    (line : pystr) : list pystr * bool :=
  let '(new_lines, updated) := acc in
  if contains hostname line && startswith [HASH] (strip line)
  then (new_lines ++ [re_sub_hash line], true)
  else (new_lines ++ [line], updated).

Definition uncomment_lines (hostname : pystr) (ls : list pystr) : list pystr * bool :=
  foldl (uncomment_step hostname) ([], false) ls.

Definition uncomment_entry (hostname answer : pystr) (w : world) : world :=
  let '(new_lines, updated) := uncomment_lines hostname (w_lines w) in
  if updated then _write_file (Some new_lines) answer w
  else emit (EvPrint (MsgNoCommentedEntry hostname)) w.

(** *** search_entries *)

(** [query in line]: with [query] being [None] the operator raises
    [TypeError], as [str.__contains__] accepts only a string. *)
Definition py_in (query : option pystr) (line : pystr) : exn + bool :=
  match query with
  | None => inl TypeError
  | Some q => inr (contains q line)
  end.

(** The loop of [search_entries] from line number [i] on. *)
Fixpoint search_loop (query : option pystr) (i : nat) (ls : list pystr)
    (found : bool) (w : world) : exn * world + bool * world :=
  match ls with
  | [] => inr (found, w)
  | line :: r =>
      match py_in query line with
      | inl e => inl (e, w)
      | inr true => search_loop query (S i) r true (emit (EvPrint (MsgSearchHit i line)) w)
      | inr false => search_loop query (S i) r found w
      end
  end.

Definition search_entries (query : option pystr) (w : world) : outcome :=
  match search_loop query 1 (w_lines w) false w with
  | inl (e, w) => Raised e w
  | inr (found, w) =>
      if negb found then Returned (emit (EvPrint (MsgNoResults query)) w)
      else Returned w
  end.

(** *** toggle_section *)

(** The first loop of [toggle_section]: the index of the header. *)
Fixpoint find_start_from (section : pystr) (i : nat) (ls : list pystr) : option nat :=
  match ls with
  | [] => None
  | line :: r =>
      let stripped_line := strip line in
      if header_form stripped_line
         && bool_decide (strip (strip_hash stripped_line) = upper section)
      then Some i
      else find_start_from section (S i) r
  end.

Record toggle_state := ToggleState {
  new_lines : list pystr;
  updated : nat;
  current_site : option pystr
}.

(** [stripped_line.startswith("#") and not any(stripped_line.startswith(f"# {d}") ...)] *)
Definition site_comment (stripped_line : pystr) : bool :=
  startswith [HASH] stripped_line && negb (starts_with_hash_digit stripped_line).

(** [site is None or (current_site and current_site == site)] *)
Definition site_selected (site current_site : option pystr) : bool :=
  match site with
  | None => true
  | Some _ =>
      match current_site with
      | Some (c :: cs) => bool_decide (Some (c :: cs) = site)
      | Some [] | None => false
      end
  end.

(** The second loop, [for idx in range(start_idx + 1, len(new_lines))], with
    [n] turns left; leaving the recursion is [break], recursing without a
    change is [continue]. *)
Fixpoint toggle_loop (site : option pystr) (enable : bool) (n idx : nat)
    (st : toggle_state) : toggle_state :=
  match n with
  | O => st
  | S n' =>
      match new_lines st !! idx with
      | None => st
      | Some line =>
          let stripped_line := strip line in
          if header_form stripped_line then st
          else if site_comment stripped_line then
            toggle_loop site enable n' (S idx)
              (ToggleState (new_lines st) (updated st) (Some (site_name_of stripped_line)))
          else if bool_decide (stripped_line = []) || site_comment stripped_line then
            toggle_loop site enable n' (S idx) st
          else if site_selected site (current_site st) then
            if enable && startswith [HASH] stripped_line then
              toggle_loop site enable n' (S idx)
                (ToggleState (<[idx := re_sub_hash line]> (new_lines st))
                             (updated st + 1) (current_site st))
            else if negb enable && negb (startswith [HASH] stripped_line) then
              toggle_loop site enable n' (S idx)
                (ToggleState (<[idx := str "# " ++ line]> (new_lines st))
                             (updated st + 1) (current_site st))
            else toggle_loop site enable n' (S idx) st
          else toggle_loop site enable n' (S idx) st
      end
  end.

(** The state of the second loop when it ends. *)
Definition toggle_scan (start_idx : nat) (site : option pystr) (enable : bool)
    (ls : list pystr) : toggle_state :=
  toggle_loop site enable (length ls - (start_idx + 1)) (start_idx + 1)
    (ToggleState ls 0 None).

(** Only the branch for a missing section has a [return] statement. *)
Definition toggle_section (section : pystr) (site : option pystr) (enable : bool)
    (answer : pystr) (w : world) : pyval * world :=
  match find_start_from section 0 (w_lines w) with
  | None => (PyInt 0, emit (EvPrint (MsgSectionNotFound section)) w)
  | Some start_idx =>
      let st := toggle_scan start_idx site enable (w_lines w) in
      if negb (updated st =? 0) then
        (PyNone, _write_file (Some (new_lines st)) answer w)
      else
        match site with
        | Some (c :: cs) =>
            (PyNone, emit (EvPrint (MsgNoChangesForSite (c :: cs) section)) w)
        | Some [] | None =>
            (PyNone, emit (EvPrint (MsgNoChangesForSection section)) w)
        end
  end.

(** *** The command handlers of cli.py *)

Definition search (query : option pystr) (w : world) : outcome :=
  search_entries query w.

Definition disable_section (section : pystr) (site : option pystr)
    (answer : pystr) (w : world) : world :=
  let '(updated, w) := toggle_section section site false answer w in
  match updated with
  | PyInt (S n) => emit (EvPrint (MsgDisabledEntries (S n) section site)) w
  | PyInt O | PyNone => w
  end.

Definition enable_section (section : pystr) (site : option pystr)
    (answer : pystr) (w : world) : world :=
  let '(updated, w) := toggle_section section site true answer w in
  match updated with
  | PyInt (S n) => emit (EvPrint (MsgEnabledEntries (S n) section site)) w
  | PyInt O | PyNone => w
  end.

(** *** list_entries *)

(** The loop of [list_entries] from line number [i] on.  Its [print] has the
    format string of a hit of [search_entries], [f"{i:03}: {line}"], so it is
    the same message. *)
Fixpoint list_entries_from (i : nat) (ls : list pystr) (w : world) : world :=
  match ls with
  | [] => w
  | line :: r => list_entries_from (S i) r (emit (EvPrint (MsgSearchHit i line)) w)
  end.

Definition list_entries (w : world) : world :=
  list_entries_from 1 (w_lines w) w.

End Editor.

(** ** Writes that can fail *)

Section Raising.
Context `{UC : UnicodeCase} `{LE : LocaleEncoding}.

(** [self.path.write_text(text)] in full: the file is opened for writing,
    which empties it, and the text is encoded as a whole before any of it is
    written; when it cannot be encoded [UnicodeEncodeError] leaves the call
    and the file stays empty. *)
Definition write_text_raising (text : pystr) (w : world) : outcome :=
  if encodable text then Returned (write_text text w)
  else Raised UnicodeEncodeError
         (World (w_path w) (w_lines w) [] (w_backup w) (w_trace w)).

(** [_write_file] with that call: when it raises, the statements after it
    ([self.lines = new_lines] and the last [print]) are not reached. *)
Definition _write_file_raising (new_lines : option (list pystr)) (answer : pystr)
    (w : world) : outcome :=
  let new_lines := or_lines new_lines w in
  let '(has_changes, w) := _show_diff new_lines w in
  if negb has_changes then Returned w
  else
    let w := emit EvInput w in
    let confirm := lower (strip answer) in
    if negb (bool_decide (confirm = str "y"))
    then Returned (emit (EvPrint MsgChangesDiscarded) w)
    else
      let w := copy2 w in
      match write_text_raising (file_text new_lines) w with
      | Raised e w => Raised e w
      | Returned w =>
          let w := set_lines new_lines w in
          Returned (emit (EvPrint (MsgChangesApplied (backup_path w))) w)
      end.

(** [add_entry] and [delete_entry] with that [_write_file]. *)
Definition add_entry_raising (ip hostname : pystr) (section comment : option pystr)
    (answer : pystr) (w : world) : outcome :=
  _write_file_raising (Some (add_entry_lines ip hostname section comment w)) answer w.

Definition delete_entry_raising (hostname answer : pystr) (w : world) : outcome :=
  let new_lines := filter (fun l => negb (contains hostname l)) (w_lines w) in
  if bool_decide (new_lines = w_lines w)
  then Returned (emit (EvPrint (MsgNoEntryFound hostname)) w)
  else _write_file_raising (Some new_lines) answer w.

(** The next call of the same run: there is none after an exception, which
    nothing in the program catches. *)
Definition and_then (o : outcome) (next : world -> outcome) : outcome :=
  match o with
  | Returned w => next w
  | Raised e w => Raised e w
  end.

End Raising.

(** * Vocabulary of the statements *)

(** No character of the line is a line boundary. *)
Definition one_line (l : pystr) : bool := forallb (fun c => negb (islinebreak c)) l.

(** The first character of the line, if any, is whitespace. *)
Definition indented (line : pystr) : bool :=
  match line with
  | c :: _ => isspace c
  | [] => false
  end.

(** The state of the editor and of its two files, the trace left aside. *)
Definition same_state (w w' : world) : Prop :=
  w_path w' = w_path w /\ w_lines w' = w_lines w
  /\ w_file w' = w_file w /\ w_backup w' = w_backup w.

(** The trace of a completed commit, after the events [t] before it. *)
Definition commit_trace (t : list event) (w : world) (new : list pystr) : list event :=
  t ++ [EvPrint (MsgProposedChanges (w_lines w) new); EvInput;
        EvCopy2 (w_path w) (backup_path w);
        EvWriteText (w_path w) (file_text new);
        EvPrint (MsgChangesApplied (backup_path w))].

(** The lines [delete_entry] keeps. *)
Definition kept (hostname : pystr) (ls : list pystr) : list pystr :=
  filter (fun l => negb (contains hostname l)) ls.

(** What [toggle_section] reports when nothing was toggled. *)
Definition no_changes_message (section : pystr) (site : option pystr) : message :=
  match site with
  | Some (c :: cs) => MsgNoChangesForSite (c :: cs) section
  | Some [] | None => MsgNoChangesForSection section
  end.

(** The test [_find_section_index] applies to a line. *)
Definition names_section `{UC : UnicodeCase} (section line : pystr) : Prop :=
  lower (strip line) = lower (str "# " ++ section).

(** The rule of the specification for a stripped comment line: it names a
    site when it does not start with a doubled hash and the text after its
    first hash, up to the next hash and stripped, is not empty and does not
    start with a digit. *)
Definition listed_site (stripped_line : pystr) : option pystr :=
  if startswith [HASH] stripped_line && negb (startswith [HASH; HASH] stripped_line)
  then
    let site_name := site_name_of stripped_line in
    if truthy site_name && negb (starts_with_digit site_name)
    then Some site_name else None
  else None.

(** What the walk of [toggle_section] takes for the current site at a line. *)
Definition walked_site (stripped_line : pystr) : option pystr :=
  if site_comment stripped_line then Some (site_name_of stripped_line) else None.

(** [w] after the events [es]. *)
Definition after_events (es : list event) (w : world) : world :=
  World (w_path w) (w_lines w) (w_file w) (w_backup w) (w_trace w ++ es).

(** The baseline holds one-line strings, and it is what loading the file
    again would give. *)
Definition consistent (w : world) : Prop :=
  forallb one_line (w_lines w) = true /\ _read_file w = w_lines w.

(** A line [comment_entry] rewrites, and a line [uncomment_entry] rewrites. *)
Definition active_match (hostname line : pystr) : bool :=
  contains hostname line && negb (startswith [HASH] (strip line)).

Definition disabled_match (hostname line : pystr) : bool :=
  contains hostname line && startswith [HASH] (strip line).

(** What [comment_entry] and [uncomment_entry] make of one line. *)
Definition commented (hostname line : pystr) : pystr :=
  if active_match hostname line then str "# " ++ line else line.

Definition uncommented (hostname line : pystr) : pystr :=
  if disabled_match hostname line then re_sub_hash line else line.

(** Every line that holds the hostname is active and not indented. *)
Definition plain_matches (hostname : pystr) (ls : list pystr) : bool :=
  forallb (fun line => negb (contains hostname line)
                       || negb (startswith [HASH] (strip line)) && negb (indented line)) ls.

(** [new] is what [toggle_section] makes of the entry line [old]: the line
    is neither blank, nor of the header form, nor a site comment for the
    walk; it is a comment exactly when the request is to enable. *)
Definition toggled (enable : bool) (old new : pystr) : Prop :=
  new = (if enable then re_sub_hash old else str "# " ++ old)
  /\ startswith [HASH] (strip old) = enable
  /\ site_comment (strip old) = false
  /\ header_form (strip old) = false
  /\ strip old <> [].

(** The lines of [ls] with their numbers, counted from [i]. *)
Definition numbered (i : nat) (ls : list pystr) : list (nat * pystr) :=
  imap (fun k line => (i + k, line)) ls.


(** A line whose stripped text has the header form and an upper-case name. *)
Definition upper_header `{UC : UnicodeCase} (line : pystr) : bool :=
  header_form (strip line)
  && truthy (strip (strip_hash (strip line)))
  && isupper (strip (strip_hash (strip line))).

(** ** Concrete documents *)

Module Samples.

Definition hosts_path : pystr := str "/etc/hosts".

(** An editor freshly loaded from a file that holds [ls], one per line. *)
Definition loaded (ls : list pystr) : world :=
  HostsEditor hosts_path (file_text ls) None.

Definition localhost_line : pystr := str "127.0.0.1" ++ [TAB] ++ str "localhost".
Definition app_line : pystr := str "10.0.0.1" ++ [TAB] ++ str "app.test".
Definition example_line : pystr := str "127.0.0.1" ++ [TAB] ++ str "example.com".

(** The scenario of the specification. *)
Definition work_doc : list pystr :=
  [str "# WORK #"; str "# example.com"; example_line].

(** The same with a doubled-hash remark between the site and its entry. *)
Definition remark_doc : list pystr :=
  [str "# WORK #"; str "# example.com"; str "## note"; example_line].

(** What [add_entry] proposes for [localhost_line] and the new section DEV. *)
Definition dev_lines : list pystr :=
  [localhost_line; LF :: str "# DEV"; app_line].

(** A hostname with the lone surrogate U+DC80 in it, as the command line
    hands over a byte that is not valid in the locale. *)
Definition bad_hostname : pystr := str "bad" ++ [56448%N] ++ str ".test".
Definition bad_line : pystr := str "10.0.0.1" ++ [TAB] ++ bad_hostname.

(** A document with a comment that reads like the header [add_entry] looks
    for, and no section. *)
Definition staging_doc : list pystr := [str "# staging"; localhost_line].

End Samples.
Import Samples.

(** * Properties *)

(** ** Strings *)

Section Strings.
Implicit Types (p : N -> bool) (s l sub : pystr) (c : N).

Lemma startswith_spec sub s :
  startswith sub s = true <-> exists b, s = sub ++ b.
Proof.
  revert s. induction sub as [|a sub IH]; intros s; simpl.
  - split; [intros _; by exists s | done].
  - destruct s as [|b s].
    + split; [done | intros [? ?]; discriminate].
    + rewrite andb_true_iff, N.eqb_eq, IH. split.
      * intros [-> [t ->]]. by exists t.
      * intros [t Ht]. injection Ht as -> ->. eauto.
Qed.

(** [contains] is Python's substring test. *)
Lemma contains_spec sub s :
  contains sub s = true <-> exists a b, s = a ++ sub ++ b.
Proof.
  induction s as [|c s IH]; simpl; rewrite orb_true_iff, startswith_spec.
  - split.
    + intros [[b Hb]|]; [|done]. by exists [], b.
    + intros (a & b & H). left.
      destruct a; [by exists b|discriminate].
  - rewrite IH. split.
    + intros [[b Hb]|(a & b & ->)]; [by exists [], b|by exists (c :: a), b].
    + intros (a & b & H). destruct a as [|c' a]; [left; by exists b|].
      right. injection H as _ ->. by exists a, b.
Qed.

Lemma contains_cons sub c s : contains sub s = true -> contains sub (c :: s) = true.
Proof. intros H. simpl. rewrite H. apply orb_true_r. Qed.

Lemma contains_app_l sub a s : contains sub s = true -> contains sub (a ++ s) = true.
Proof. intros H. induction a; [done | by apply contains_cons]. Qed.

Lemma lstrip_with_snoc p l c :
  p c = false -> lstrip_with p (l ++ [c]) = lstrip_with p l ++ [c].
Proof.
  intros Hc. induction l as [|a l IH]; simpl.
  - by rewrite Hc.
  - by destruct (p a).
Qed.

(** Stripping on the right never takes a first character that stripping on
    the left would keep. *)
Lemma rstrip_with_cons p c s :
  p c = false -> rstrip_with p (c :: s) = c :: rstrip_with p s.
Proof.
  intros Hc. unfold rstrip_with.
  by rewrite reverse_cons, lstrip_with_snoc, reverse_app.
Qed.

Lemma strip_cons c s : isspace c = false -> strip (c :: s) = c :: rstrip_with isspace s.
Proof.
  intros Hc. unfold strip, strip_with. simpl. rewrite Hc.
  by apply rstrip_with_cons.
Qed.

Lemma lstrip_with_idem p s : lstrip_with p (lstrip_with p s) = lstrip_with p s.
Proof.
  induction s as [|c s IH]; simpl; [done|].
  destruct (p c) eqn:Hc; [done|]. simpl. by rewrite Hc.
Qed.

Lemma islinebreak_not_CR c : islinebreak c = false -> (c =? CR)%N = false.
Proof.
  intros H. destruct (c =? CR)%N eqn:E; [|done].
  apply N.eqb_eq in E. subst c. discriminate.
Qed.

Lemma islinebreak_not_LF c : islinebreak c = false -> (c =? LF)%N = false.
Proof.
  intros H. destruct (c =? LF)%N eqn:E; [|done].
  apply N.eqb_eq in E. subst c. discriminate.
Qed.

End Strings.

(** ** Lines and files *)

Section Lines.
Implicit Types (l cur s : pystr) (ls : list pystr).

Lemma file_text_cons l l' ls :
  file_text (l :: l' :: ls) = l ++ LF :: file_text (l' :: ls).
Proof. unfold file_text. simpl. by rewrite <- !app_assoc. Qed.

Lemma splitlines_from_line l cur s :
  one_line l = true ->
  splitlines_from false cur (l ++ LF :: s)
  = (reverse cur ++ l) :: splitlines_from false [] s.
Proof.
  revert cur. induction l as [|c l IH]; intros cur Hl; simpl in *.
  - by rewrite app_nil_r.
  - apply andb_true_iff in Hl as [Hc Hl]. apply negb_true_iff in Hc.
    rewrite Hc, IH by done. by rewrite reverse_cons, <- app_assoc.
Qed.

Lemma universal_newlines_line l s :
  one_line l = true ->
  universal_newlines false (l ++ LF :: s) = l ++ LF :: universal_newlines false s.
Proof.
  intros Hl. induction l as [|c l IH]; simpl in *; [done|].
  apply andb_true_iff in Hl as [Hc Hl]. apply negb_true_iff in Hc.
  by rewrite (islinebreak_not_CR _ Hc), IH.
Qed.

Lemma universal_newlines_file_text ls :
  ls <> [] -> forallb one_line ls = true ->
  universal_newlines false (file_text ls) = file_text ls.
Proof.
  intros Hne Hls. induction ls as [|l ls IH]; [done|].
  simpl in Hls. apply andb_true_iff in Hls as [Hl Hls].
  destruct ls as [|l' ls].
  - unfold file_text. simpl. by rewrite universal_newlines_line.
  - by rewrite file_text_cons, universal_newlines_line, IH.
Qed.

Lemma splitlines_file_text ls :
  ls <> [] -> forallb one_line ls = true -> splitlines (file_text ls) = ls.
Proof.
  intros Hne Hls. unfold splitlines. induction ls as [|l ls IH]; [done|].
  simpl in Hls. apply andb_true_iff in Hls as [Hl Hls].
  destruct ls as [|l' ls].
  - unfold file_text. simpl. by rewrite splitlines_from_line.
  - by rewrite file_text_cons, splitlines_from_line, IH.
Qed.

End Lines.

(** ** Round trip through the file *)

(** C9 as stated fails: the sequence [add_entry] proposes for a new section
    holds the element ["\n# DEV"], which comes back as two lines; and the
    empty sequence comes back as one empty line. *)
Lemma reload_differs :
  add_entry_lines (str "10.0.0.1") (str "app.test") (Some (str "DEV")) None
    (loaded [localhost_line]) = dev_lines
  /\ _read_file (write_text (file_text dev_lines) (loaded [localhost_line]))
     = [localhost_line; []; str "# DEV"; app_line]
  /\ _read_file (write_text (file_text dev_lines) (loaded [localhost_line])) <> dev_lines
  /\ _read_file (write_text (file_text []) (loaded [])) <> [].
Proof. by vm_compute. Qed.

(** ** The commit workflow *)

Section Commit.
Context `{UC : UnicodeCase}.
Implicit Types (w : world) (new : option (list pystr)) (answer : pystr).

Lemma same_state_emit e w : same_state w (emit e w).
Proof. by repeat split. Qed.

Lemma write_file_unchanged new answer w :
  or_lines new w = w_lines w ->
  _write_file new answer w = emit (EvPrint MsgNoChangesToApply) w.
Proof.
  intros H. unfold _write_file, _show_diff. rewrite H.
  by rewrite bool_decide_eq_true_2.
Qed.

Lemma write_file_declined new answer w :
  or_lines new w <> w_lines w -> lower (strip answer) <> str "y" ->
  _write_file new answer w
  = emit (EvPrint MsgChangesDiscarded)
      (emit EvInput (emit (EvPrint (MsgProposedChanges (w_lines w) (or_lines new w))) w)).
Proof.
  intros Hd Ha. unfold _write_file, _show_diff.
  rewrite bool_decide_eq_false_2 by congruence. simpl.
  by rewrite bool_decide_eq_false_2.
Qed.

Lemma write_file_confirmed new answer w :
  or_lines new w <> w_lines w -> lower (strip answer) = str "y" ->
  _write_file new answer w
  = World (w_path w) (or_lines new w) (file_text (or_lines new w))
      (Some (w_file w)) (commit_trace (w_trace w) w (or_lines new w)).
Proof.
  intros Hd Ha. unfold _write_file, _show_diff.
  rewrite bool_decide_eq_false_2 by congruence. simpl.
  rewrite bool_decide_eq_true_2 by done. simpl.
  unfold commit_trace, emit, backup_path. simpl. f_equal.
  by rewrite <- !app_assoc.
Qed.

(** A confirmed commit of a non-empty proposal that differs from the baseline. *)
Lemma write_file_commits l ls answer w :
  l :: ls <> w_lines w -> lower (strip answer) = str "y" ->
  _write_file (Some (l :: ls)) answer w
  = World (w_path w) (l :: ls) (file_text (l :: ls))
      (Some (w_file w)) (commit_trace (w_trace w) w (l :: ls)).
Proof. intros Hd Ha. by rewrite write_file_confirmed. Qed.

Lemma filter_all_match hostname (ls : list pystr) :
  forallb (contains hostname) ls = true ->
  filter (fun l => negb (contains hostname l)) ls = [].
Proof.
  induction ls as [|l ls IH]; [done|]. simpl.
  intros [Hl Hls]%andb_true_iff.
  rewrite filter_cons, Hl. simpl. by apply IH.
Qed.

(** C10: an empty proposal is replaced by the baseline, so the workflow
    reports that there is nothing to apply and does nothing else; this is
    what [delete_entry] runs into when every line holds the hostname. *)
Theorem empty_proposal_is_dropped answer w :
  _write_file (Some []) answer w = emit (EvPrint MsgNoChangesToApply) w
  /\ forall hostname,
       w_lines w <> [] ->
       forallb (contains hostname) (w_lines w) = true ->
       delete_entry hostname answer w = emit (EvPrint MsgNoChangesToApply) w.
Proof.
  split; [by apply write_file_unchanged|].
  intros hostname Hne Hall. unfold delete_entry.
  rewrite (filter_all_match _ _ Hall).
  rewrite bool_decide_eq_false_2 by done.
  by apply write_file_unchanged.
Qed.

End Commit.

Lemma empty_proposal_is_dropped_witness :
  delete_entry (str "localhost") (str "y") (loaded [localhost_line])
  = emit (EvPrint MsgNoChangesToApply) (loaded [localhost_line]).
Proof.
  apply (empty_proposal_is_dropped (str "y") (loaded [localhost_line]));
    [discriminate | reflexivity].
Defined.

(** ** Joining lines *)

Section Join.
Implicit Types (l sep : pystr) (ls : list pystr).

Lemma join_app sep ls ls' :
  ls <> [] -> ls' <> [] -> join sep (ls ++ ls') = join sep ls ++ sep ++ join sep ls'.
Proof.
  intros Hne Hne'. induction ls as [|l ls IH]; [done|].
  destruct ls as [|l' ls].
  - destruct ls'; [done|]. done.
  - change (join sep ((l :: l' :: ls) ++ ls'))
      with (l ++ sep ++ join sep ((l' :: ls) ++ ls')).
    rewrite IH by done. simpl. by rewrite <- !app_assoc.
Qed.

Lemma file_text_app ls ls' :
  ls <> [] -> ls' <> [] -> file_text (ls ++ ls') = file_text ls ++ file_text ls'.
Proof.
  intros Hne Hne'. unfold file_text. rewrite join_app by done.
  by rewrite <- !app_assoc.
Qed.

(** An element that starts with a line feed is written as an empty line
    followed by the rest of the element. *)
Lemma file_text_leading_LF ls l ls' :
  file_text (ls ++ (LF :: l) :: ls') = file_text (ls ++ [] :: l :: ls').
Proof.
  destruct ls as [|l0 ls].
  - simpl. unfold file_text. destruct ls'; simpl; by rewrite <- ?app_assoc.
  - rewrite !file_text_app by done. f_equal.
    unfold file_text. destruct ls'; simpl; by rewrite <- ?app_assoc.
Qed.

End Join.

(** ** add_entry *)

Section Add.
Context `{UC : UnicodeCase}.
Implicit Types (w : world) (section ip hostname answer : pystr)
  (comment : option pystr) (ls : list pystr).

Lemma find_section_from_None section i ls :
  find_section_from section i ls = None <-> Forall (fun l => ~ names_section section l) ls.
Proof.
  revert i. induction ls as [|l ls IH]; intros i; simpl.
  - split; [constructor | done].
  - case_bool_decide as Hl.
    + split; [done | by intros [? _]%Forall_cons].
    + rewrite IH, Forall_cons. tauto.
Qed.

(** The index found is that of the first line that passes the test. *)
Lemma find_section_from_Some section i ls idx :
  find_section_from section i ls = Some idx ->
  exists before header after,
    ls = before ++ header :: after /\ idx = i + length before
    /\ names_section section header
    /\ Forall (fun l => ~ names_section section l) before.
Proof.
  revert i. induction ls as [|l ls IH]; intros i; simpl; [done|].
  case_bool_decide as Hl.
  - intros [= <-]. exists [], l, ls. repeat split; [simpl; lia | done | constructor].
  - intros (before & header & after & -> & -> & Hh & Hb)%IH.
    exists (l :: before), header, after.
    repeat split; [simpl; lia | done | by constructor].
Qed.

Lemma or_lines_nonempty (new : list pystr) w : new <> [] -> or_lines (Some new) w = new.
Proof. by destruct new. Qed.

(** With a section that [_find_section_index] finds, the entry goes right
    after the first line whose stripped, lower-cased text is that of
    [# SECTION]; the lines before and after keep their order. *)
Lemma add_entry_existing_section ip hostname section comment w idx :
  section <> [] -> _find_section_index section w = Some idx ->
  exists before header after,
    w_lines w = before ++ header :: after
    /\ idx = length before
    /\ names_section section header
    /\ Forall (fun l => ~ names_section section l) before
    /\ add_entry_lines ip hostname (Some section) comment w
       = before ++ header :: new_entry ip hostname comment :: after.
Proof.
  intros Hs Hf. pose proof Hf as Hf'. unfold _find_section_index in Hf'.
  apply find_section_from_Some in Hf' as (before & header & after & E & -> & Hh & Hb).
  exists before, header, after. repeat split; try done.
  unfold add_entry_lines. destruct section as [|c cs]; [done|].
  rewrite Hf, E. unfold list_insert_at. simpl.
  replace (length before + 1) with (length (before ++ [header]))
    by (rewrite length_app; simpl; lia).
  rewrite (cons_middle header before after), app_assoc.
  rewrite take_app_length, drop_app_length.
  by rewrite <- app_assoc.
Qed.

End Add.

(** C2 fails on the code: [_find_section_index] compares a stripped line with
    [# SECTION], so the header [# WORK #], which [toggle_section] and
    [list_sections] take for the section WORK, is not found, and [add_entry]
    starts a second block at the end instead of inserting after the header. *)
Theorem add_entry_misses_closed_header :
  let w := loaded [str "# WORK #"; localhost_line] in
  find_start_from (str "WORK") 0 (w_lines w) = Some 0
  /\ scan_sections (w_lines w) = [(str "WORK", [])]
  /\ _find_section_index (str "WORK") w = None
  /\ add_entry_lines (str "10.0.0.1") (str "app.test") (Some (str "WORK")) None w
     = [str "# WORK #"; localhost_line; LF :: str "# WORK"; app_line]
  /\ add_entry_lines (str "10.0.0.1") (str "app.test") (Some (str "WORK")) None w
     <> [str "# WORK #"; app_line; localhost_line].
Proof. by vm_compute. Qed.

(** ** delete_entry *)

Section Delete.
Context `{UC : UnicodeCase}.
Implicit Types (w : world) (hostname answer : pystr) (ls : list pystr).

Lemma kept_all hostname ls :
  kept hostname ls = ls <-> forallb (fun l => negb (contains hostname l)) ls = true.
Proof.
  unfold kept. induction ls as [|l ls IH]; simpl; [done|].
  rewrite filter_cons. destruct (contains hostname l) eqn:Hl; simpl.
  - split; [|done]. intros Heq. apply (f_equal length) in Heq.
    pose proof (length_filter (fun l => negb (contains hostname l)) ls).
    simpl in Heq. lia.
  - rewrite <- IH. split; [by intros [= ->] | by intros ->].
Qed.

(** No line holds the hostname: one message, and nothing else happens. *)
Lemma delete_entry_no_match hostname answer w :
  forallb (fun l => negb (contains hostname l)) (w_lines w) = true ->
  delete_entry hostname answer w = emit (EvPrint (MsgNoEntryFound hostname)) w.
Proof.
  intros H%kept_all. unfold delete_entry. fold (kept hostname (w_lines w)).
  by rewrite bool_decide_eq_true_2.
Qed.

(** Some line holds the hostname and some line does not: on a yes the file
    holds the lines without the hostname, in their order. *)
Lemma delete_entry_commits hostname answer w :
  existsb (contains hostname) (w_lines w) = true ->
  kept hostname (w_lines w) <> [] ->
  lower (strip answer) = str "y" ->
  delete_entry hostname answer w
  = World (w_path w) (kept hostname (w_lines w))
      (file_text (kept hostname (w_lines w))) (Some (w_file w))
      (commit_trace (w_trace w) w (kept hostname (w_lines w))).
Proof.
  intros Hex Hne Hans. unfold delete_entry. fold (kept hostname (w_lines w)).
  assert (kept hostname (w_lines w) <> w_lines w) as Hd.
  { intros Heq%kept_all. apply existsb_exists in Hex as (l & Hin & Hl).
    rewrite forallb_forall in Heq. specialize (Heq l Hin). by rewrite Hl in Heq. }
  rewrite bool_decide_eq_false_2 by done.
  rewrite write_file_confirmed by (rewrite ?or_lines_nonempty; done).
  by rewrite or_lines_nonempty.
Qed.

End Delete.

(** C7 fails on the code when every line holds the hostname: the proposal is
    empty, [_write_file] takes the baseline in its place, and the lines that
    were to go stay, under the message that there is nothing to apply. *)
Theorem delete_entry_keeps_every_line :
  let w := loaded [localhost_line; example_line] in
  forallb (contains (str "127.0.0.1")) (w_lines w) = true
  /\ kept (str "127.0.0.1") (w_lines w) = []
  /\ delete_entry (str "127.0.0.1") (str "y") w
     = World hosts_path [localhost_line; example_line]
         (file_text [localhost_line; example_line]) None
         [EvPrint MsgNoChangesToApply].
Proof. by vm_compute. Qed.

(** ** search_entries *)

Section Search.
Context `{UC : UnicodeCase}.

(** On a document without lines the loop body never runs. *)
Lemma search_entries_none_empty path file backup trace :
  search_entries None (World path [] file backup trace)
  = Returned (World path [] file backup (trace ++ [EvPrint (MsgNoResults None)])).
Proof. reflexivity. Qed.

(** C3 fails on the code: with the query absent and at least one line in
    the document, the first test [query in line] raises [TypeError]; nothing
    has been printed by then. *)
Theorem search_entries_none_raises path line rest file backup trace :
  search None (World path (line :: rest) file backup trace)
  = Raised TypeError (World path (line :: rest) file backup trace).
Proof. reflexivity. Qed.

(** With a query the search returns. *)
Lemma search_entries_returns q w : exists w', search_entries (Some q) w = Returned w'.
Proof.
  unfold search_entries.
  assert (forall ls i found w0, exists r, search_loop (Some q) i ls found w0 = inr r) as H.
  { induction ls as [|l ls IH]; intros i found w0; simpl; [eauto|].
    destruct (contains q l); apply IH. }
  destruct (H (w_lines w) 1 false w) as [[found w'] ->].
  destruct found; simpl; eauto.
Qed.

End Search.

(** ** comment_entry and uncomment_entry *)

Section Comment.
Implicit Types (hostname line : pystr).

(** What [uncomment_entry] makes of a line disabled by [comment_entry]:
    the line without its leading whitespace. *)
Lemma enable_disabled line : re_sub_hash (str "# " ++ line) = lstrip_with isspace line.
Proof. reflexivity. Qed.

Lemma lstrip_not_indented line : indented line = false -> lstrip_with isspace line = line.
Proof. destruct line as [|c r]; [done|]. simpl. by intros ->. Qed.

Lemma disabled_is_comment line : startswith [HASH] (strip (str "# " ++ line)) = true.
Proof. simpl. by rewrite strip_cons. Qed.

(** C4, amended: a line that holds the hostname, is not a comment and does
    not begin with whitespace is disabled by [comment_entry] into [# ] and
    the line, and [uncomment_entry] turns that back into the line itself. *)
Theorem disable_then_enable hostname line :
  contains hostname line = true ->
  startswith [HASH] (strip line) = false ->
  indented line = false ->
  comment_lines hostname [line] = ([str "# " ++ line], true)
  /\ uncomment_lines hostname [str "# " ++ line] = ([line], true).
Proof.
  intros Hin Hact Hind. split.
  - unfold comment_lines, comment_step. cbn [foldl]. by rewrite Hin, Hact.
  - unfold uncomment_lines, uncomment_step. cbn [foldl].
    rewrite (contains_app_l hostname (str "# ") line Hin), disabled_is_comment.
    cbn [andb]. by rewrite enable_disabled, lstrip_not_indented.
Qed.

End Comment.

Lemma disable_then_enable_witness :
  comment_lines (str "example.com") [example_line] = ([str "# " ++ example_line], true)
  /\ uncomment_lines (str "example.com") [str "# " ++ example_line]
     = ([example_line], true).
Proof. apply disable_then_enable; reflexivity. Defined.

(** C4 as stated fails on an indented entry: it is matched and disabled, and
    enabling the result gives the entry without its indentation. *)
Lemma disable_then_enable_indented :
  comment_lines (str "app.test") [SPACE :: app_line]
  = ([str "# " ++ SPACE :: app_line], true)
  /\ uncomment_lines (str "app.test") [str "# " ++ SPACE :: app_line]
     = ([app_line], true)
  /\ app_line <> SPACE :: app_line.
Proof. by vm_compute. Qed.

(** ** toggle_section *)

Section Toggle.
Context `{UC : UnicodeCase}.
Implicit Types (w : world) (section answer line : pystr) (site : option pystr)
  (st : toggle_state).

(** The section is found and no line was toggled: the message names the
    site when one was given, and the commit workflow is not entered. *)
Lemma toggle_section_no_changes section site enable answer w start_idx :
  find_start_from section 0 (w_lines w) = Some start_idx ->
  updated (toggle_scan start_idx site enable (w_lines w)) = 0 ->
  toggle_section section site enable answer w
  = (PyNone, emit (EvPrint (no_changes_message section site)) w).
Proof.
  intros Hf Hu. unfold toggle_section. rewrite Hf. cbv zeta. rewrite Hu. simpl.
  by destruct site as [[|c cs]|].
Qed.

(** Some line was toggled: the new lines go to the commit workflow, and
    the method ends without a [return]. *)
Lemma toggle_section_commits section site enable answer w start_idx :
  find_start_from section 0 (w_lines w) = Some start_idx ->
  updated (toggle_scan start_idx site enable (w_lines w)) <> 0 ->
  toggle_section section site enable answer w
  = (PyNone,
     _write_file (Some (new_lines (toggle_scan start_idx site enable (w_lines w))))
       answer w).
Proof.
  intros Hf Hu. unfold toggle_section. rewrite Hf. cbv zeta.
  destruct (updated _ =? 0) eqn:E; [|done].
  by apply Nat.eqb_eq in E.
Qed.

(** Whatever the input, the value handed back is [None] or [0]. *)
Lemma toggle_section_value section site enable answer w :
  (toggle_section section site enable answer w).1 = PyNone
  \/ (toggle_section section site enable answer w).1 = PyInt 0.
Proof.
  unfold toggle_section. destruct (find_start_from _ _ _); [|by right].
  cbv zeta. destruct (negb _); [by left|].
  destruct site as [[|c cs]|]; by left.
Qed.

Lemma disable_section_silent section site answer w :
  disable_section section site answer w
  = (toggle_section section site false answer w).2.
Proof.
  unfold disable_section.
  destruct (toggle_section_value section site false answer w) as [H|H];
    destruct (toggle_section _ _ _ _ _) as [v w']; simpl in *; by subst v.
Qed.

Lemma enable_section_silent section site answer w :
  enable_section section site answer w
  = (toggle_section section site true answer w).2.
Proof.
  unfold enable_section.
  destruct (toggle_section_value section site true answer w) as [H|H];
    destruct (toggle_section _ _ _ _ _) as [v w']; simpl in *; by subst v.
Qed.

End Toggle.

(** C1 fails on the code: [toggle_section] has no [return] after its commit,
    so the caller gets [None] and never a count, and the handlers of cli.py
    never print their summary; in the scenario of the specification one line
    is toggled and committed, and the trace ends with the commit. *)
Theorem toggle_section_returns_no_count :
  (forall (UC : UnicodeCase) section site enable answer w,
     py_truthy (toggle_section section site enable answer w).1 = false
     /\ disable_section section site answer w
        = (toggle_section section site false answer w).2
     /\ enable_section section site answer w
        = (toggle_section section site true answer w).2)
  /\ updated (toggle_scan 0 (Some (str "example.com")) false work_doc) = 1
  /\ toggle_section (str "work") (Some (str "example.com")) false (str "y")
       (loaded work_doc)
     = (PyNone,
        World hosts_path
          [str "# WORK #"; str "# example.com"; str "# " ++ example_line]
          (file_text [str "# WORK #"; str "# example.com"; str "# " ++ example_line])
          (Some (file_text work_doc))
          (commit_trace [] (loaded work_doc)
             [str "# WORK #"; str "# example.com"; str "# " ++ example_line]))
  /\ disable_section (str "work") (Some (str "example.com")) (str "y") (loaded work_doc)
     = (toggle_section (str "work") (Some (str "example.com")) false (str "y")
          (loaded work_doc)).2.
Proof.
  split; [|by vm_compute].
  intros UC section site enable answer w. split; [|split].
  - by destruct (toggle_section_value section site enable answer w) as [-> | ->].
  - apply disable_section_silent.
  - apply enable_section_silent.
Qed.

(** ** Site comments in list_sections and in toggle_section *)

Section Sites.
Context `{UC : UnicodeCase}.
Implicit Types (s line : pystr) (st : toggle_state).

(** [list_sections] decides by [listed_site] on every line that is not of
    the header form, once a section is open. *)
Lemma list_sections_step_site (sc : scan) line c cs :
  header_form (strip line) = false ->
  current_section sc = Some (c :: cs) ->
  list_sections_step sc line
  = match listed_site (strip line) with
    | Some site_name =>
        Scan (sections sc) (current_section sc) (current_sites sc ++ [site_name])
    | None => sc
    end.
Proof.
  intros Hh Hc. unfold list_sections_step, listed_site. rewrite Hh.
  destruct (startswith [HASH] (strip line) && _); [|done].
  cbv zeta. rewrite Hc. simpl from_option.
  destruct (truthy (site_name_of (strip line)) && _); by simpl.
Qed.

(** [toggle_section] decides by [walked_site]: one turn of its walk on a
    line within the section sets the current site to what [walked_site]
    gives, and leaves the lines and the count as they are. *)
Lemma toggle_loop_site site enable n idx st line site_name :
  new_lines st !! idx = Some line ->
  header_form (strip line) = false ->
  walked_site (strip line) = Some site_name ->
  toggle_loop site enable (S n) idx st
  = toggle_loop site enable n (S idx)
      (ToggleState (new_lines st) (updated st) (Some site_name)).
Proof.
  intros Hl Hh Hw. cbn [toggle_loop]. rewrite Hl, Hh.
  unfold walked_site in Hw. destruct (site_comment (strip line)); [|done].
  by injection Hw as <-.
Qed.

(** On a line that [walked_site] does not take for a site comment the walk
    keeps its current site. *)
Lemma toggle_loop_entry site enable n idx st line :
  new_lines st !! idx = Some line ->
  header_form (strip line) = false ->
  walked_site (strip line) = None ->
  exists st',
    toggle_loop site enable (S n) idx st = toggle_loop site enable n (S idx) st'
    /\ current_site st' = current_site st.
Proof.
  intros Hl Hh Hw. cbn [toggle_loop]. rewrite Hl, Hh.
  unfold walked_site in Hw. destruct (site_comment (strip line)); [done|].
  rewrite orb_false_r.
  case_bool_decide; [by eauto|].
  destruct (site_selected site (current_site st)); [|by eauto].
  destruct (enable && _); [by eexists|].
  destruct (negb enable && _); by eexists.
Qed.

Lemma digit_facts d :
  In d digits -> isspace d = false /\ (d =? HASH)%N = false.
Proof.
  intros Hd. vm_compute in Hd.
  repeat (destruct Hd as [<-|Hd]; [by vm_compute|]). done.
Qed.

(** A line that starts with [# ] and a digit has a name that starts with
    that digit. *)
Lemma hash_digit_name s :
  starts_with_hash_digit s = true -> starts_with_digit (site_name_of s) = true.
Proof.
  unfold starts_with_hash_digit, starts_with_digit.
  intros (d & Hd & Hs)%existsb_exists.
  apply startswith_spec in Hs as [b ->].
  destruct (digit_facts d Hd) as [Hsp Hh].
  apply existsb_exists. exists d. split; [done|].
  unfold site_name_of. cbn [str app drop before_first].
  change (N_of_ascii " " =? HASH)%N with false. rewrite Hh. cbv iota.
  unfold strip, strip_with. cbn [lstrip_with].
  change (isspace (N_of_ascii " ")) with true. rewrite Hsp. cbv iota.
  rewrite rstrip_with_cons by done. simpl. by rewrite N.eqb_refl.
Qed.

(** Every site of [list_sections] is a site of the walk, under the same
    name; the converse does not hold. *)
Lemma listed_site_walked s site_name :
  listed_site s = Some site_name -> walked_site s = Some site_name.
Proof.
  unfold listed_site, walked_site, site_comment. intros H.
  destruct (startswith [HASH] s); cbn [andb] in *; [|done].
  destruct (startswith [HASH; HASH] s); cbn [andb negb] in H; [done|].
  cbv zeta in H.
  destruct (truthy (site_name_of s)); cbn [andb] in H; [|done].
  destruct (starts_with_digit (site_name_of s)) eqn:Hd; cbn [negb] in H; [done|].
  injection H as <-.
  destruct (starts_with_hash_digit s) eqn:Hhd; [|done].
  apply hash_digit_name in Hhd. congruence.
Qed.

End Sites.

(** C5 fails on the code: the walk of [toggle_section] takes a doubled-hash
    remark, a bare hash and a disabled entry written without a space after
    the hash for site comments, which [list_sections] does not.  So in
    [remark_doc], where [list_sections] shows the entry under the site
    example.com, disabling that site toggles nothing, while in [work_doc],
    without the remark, it toggles the entry. *)
Theorem site_decisions_differ :
  (listed_site (str "## note") = None /\ walked_site (str "## note") = Some [])
  /\ (listed_site (str "#") = None /\ walked_site (str "#") = Some [])
  /\ (listed_site (str "#10.0.0.1 app.test") = None
      /\ walked_site (str "#10.0.0.1 app.test") = Some (str "10.0.0.1 app.test"))
  /\ scan_sections remark_doc = [(str "WORK", [str "example.com"])]
  /\ toggle_section (str "work") (Some (str "example.com")) false (str "y")
       (loaded remark_doc)
     = (PyNone,
        emit (EvPrint (MsgNoChangesForSite (str "example.com") (str "work")))
          (loaded remark_doc))
  /\ updated (toggle_scan 0 (Some (str "example.com")) false work_doc) = 1.
Proof. by vm_compute. Qed.

(** * Further properties of the editor *)

(** ** Loading *)

Section Loading.
Implicit Types (l cur s text : pystr) (ls : list pystr).

Lemma one_line_app l l' : one_line (l ++ l') = one_line l && one_line l'.
Proof. apply forallb_app. Qed.

Lemma one_line_reverse l : one_line (reverse l) = one_line l.
Proof.
  induction l as [|c l IH]; [done|].
  rewrite reverse_cons, one_line_app, IH. simpl. by rewrite andb_true_r, andb_comm.
Qed.

Lemma splitlines_from_one_line skip_lf cur s :
  one_line cur = true -> forallb one_line (splitlines_from skip_lf cur s) = true.
Proof.
  revert skip_lf cur. induction s as [|c s IH]; intros skip_lf cur Hcur; simpl.
  - destruct cur; [done|]. simpl. by rewrite one_line_reverse, Hcur.
  - destruct (skip_lf && (c =? LF)%N); [by apply IH|].
    destruct (islinebreak c) eqn:Hc.
    + simpl. rewrite one_line_reverse, Hcur. by apply IH.
    + apply IH. simpl. by rewrite Hc.
Qed.

Lemma read_lines_one_line text : forallb one_line (read_lines text) = true.
Proof. by apply splitlines_from_one_line. Qed.

Lemma read_lines_file_text ls :
  ls <> [] -> forallb one_line ls = true -> read_lines (file_text ls) = ls.
Proof.
  intros Hne Hls. unfold read_lines.
  rewrite universal_newlines_file_text by done. by apply splitlines_file_text.
Qed.

End Loading.

(** X1: whatever the file holds, the baseline of a freshly constructed
    editor consists of strings without a line boundary character, and it is
    what [_read_file] gives on the file. *)
Theorem loaded_editor_consistent (path text : pystr) (backup : option pystr) :
  consistent (HostsEditor path text backup).
Proof. split; [apply read_lines_one_line | reflexivity]. Qed.

Section Consistency.
Context `{UC : UnicodeCase}.
Implicit Types (w : world) (answer : pystr) (new : list pystr).

Lemma write_file_consistent new answer w :
  forallb one_line new = true -> consistent w ->
  consistent (_write_file (Some new) answer w).
Proof.
  intros Hnew [Hl Hr].
  destruct (decide (or_lines (Some new) w = w_lines w)) as [Heq|Hne].
  { by rewrite write_file_unchanged. }
  destruct (decide (lower (strip answer) = str "y")) as [Hy|Hn].
  - rewrite write_file_confirmed by done.
    destruct new as [|l ls]; [done|]. simpl or_lines.
    split; [done|]. unfold _read_file. simpl. by apply read_lines_file_text.
  - by rewrite write_file_declined.
Qed.

End Consistency.

(** ** comment_entry and uncomment_entry on whole documents *)

Section Comment_documents.
Context `{UC : UnicodeCase}.
Implicit Types (w : world) (hostname answer line : pystr) (ls acc : list pystr).

Lemma comment_step_eq hostname acc (b : bool) line :
  comment_step hostname (acc, b) line
  = (acc ++ [commented hostname line], b || active_match hostname line).
Proof.
  unfold comment_step, commented. fold (active_match hostname line).
  destruct (active_match hostname line); by rewrite ?orb_true_r, ?orb_false_r.
Qed.

Lemma comment_fold hostname ls acc (b : bool) :
  foldl (comment_step hostname) (acc, b) ls
  = (acc ++ map (commented hostname) ls, b || existsb (active_match hostname) ls).
Proof.
  revert acc b. induction ls as [|l ls IH]; intros acc b; cbn [foldl map existsb].
  - by rewrite app_nil_r, orb_false_r.
  - by rewrite comment_step_eq, IH, <- app_assoc, orb_assoc.
Qed.

Lemma comment_lines_map hostname ls :
  comment_lines hostname ls
  = (map (commented hostname) ls, existsb (active_match hostname) ls).
Proof. unfold comment_lines. by rewrite comment_fold. Qed.

Lemma uncomment_step_eq hostname acc (b : bool) line :
  uncomment_step hostname (acc, b) line
  = (acc ++ [uncommented hostname line], b || disabled_match hostname line).
Proof.
  unfold uncomment_step, uncommented. fold (disabled_match hostname line).
  destruct (disabled_match hostname line); by rewrite ?orb_true_r, ?orb_false_r.
Qed.

Lemma uncomment_fold hostname ls acc (b : bool) :
  foldl (uncomment_step hostname) (acc, b) ls
  = (acc ++ map (uncommented hostname) ls, b || existsb (disabled_match hostname) ls).
Proof.
  revert acc b. induction ls as [|l ls IH]; intros acc b; cbn [foldl map existsb].
  - by rewrite app_nil_r, orb_false_r.
  - by rewrite uncomment_step_eq, IH, <- app_assoc, orb_assoc.
Qed.

Lemma uncomment_lines_map hostname ls :
  uncomment_lines hostname ls
  = (map (uncommented hostname) ls, existsb (disabled_match hostname) ls).
Proof. unfold uncomment_lines. by rewrite uncomment_fold. Qed.

(** A line just disabled is no longer active, and it is now disabled. *)
Lemma commented_not_active hostname line :
  active_match hostname (commented hostname line) = false.
Proof.
  unfold commented. destruct (active_match hostname line) eqn:E; [|done].
  unfold active_match. by rewrite disabled_is_comment, andb_false_r.
Qed.

Lemma commented_changes hostname ls :
  existsb (active_match hostname) ls = true -> map (commented hostname) ls <> ls.
Proof.
  induction ls as [|l ls IH]; simpl; [done|].
  unfold commented at 1. destruct (active_match hostname l); simpl.
  - intros _ [= H _]. apply (f_equal length) in H. simpl in H. lia.
  - intros H [= Heq]. by apply IH.
Qed.

Lemma no_active_after_comment hostname ls :
  existsb (active_match hostname) (map (commented hostname) ls) = false.
Proof.
  induction ls as [|l ls IH]; [done|]. simpl.
  by rewrite commented_not_active, IH.
Qed.

(** X2: once [comment_entry] has been confirmed, a second call for the same
    hostname finds no active entry: it prints that message and neither prompts
    nor writes. *)
Theorem comment_entry_twice hostname answer answer' w :
  lower (strip answer) = str "y" ->
  comment_entry hostname answer' (comment_entry hostname answer w)
  = emit (EvPrint (MsgNoActiveEntry hostname)) (comment_entry hostname answer w).
Proof.
  intros Hy. unfold comment_entry at 2 3. rewrite comment_lines_map.
  destruct (existsb (active_match hostname) (w_lines w)) eqn:E.
  - pose proof (commented_changes _ _ E) as Hd.
    assert (map (commented hostname) (w_lines w) <> []) as Hne.
    { destruct (w_lines w); [done | discriminate]. }
    rewrite write_file_confirmed by (rewrite ?or_lines_nonempty; done).
    rewrite or_lines_nonempty by done.
    unfold comment_entry. simpl w_lines.
    by rewrite comment_lines_map, no_active_after_comment.
  - unfold comment_entry. simpl w_lines. by rewrite comment_lines_map, E.
Qed.

Lemma uncommented_commented hostname line :
  negb (contains hostname line)
  || negb (startswith [HASH] (strip line)) && negb (indented line) = true ->
  uncommented hostname (commented hostname line) = line
  /\ disabled_match hostname (commented hostname line) = contains hostname line
  /\ active_match hostname line = contains hostname line.
Proof.
  unfold commented, uncommented, active_match, disabled_match.
  destruct (contains hostname line) eqn:Hc; cbn [negb orb andb].
  - intros [Ha Hi]%andb_true_iff. rewrite Ha.
    rewrite (contains_app_l hostname (str "# ") line Hc), disabled_is_comment.
    cbn [andb]. rewrite enable_disabled, lstrip_not_indented; [done|].
    by apply negb_true_iff.
  - intros _. by rewrite Hc.
Qed.

Lemma uncomment_after_comment hostname ls :
  plain_matches hostname ls = true ->
  map (uncommented hostname) (map (commented hostname) ls) = ls
  /\ existsb (disabled_match hostname) (map (commented hostname) ls)
     = existsb (contains hostname) ls
  /\ existsb (active_match hostname) ls = existsb (contains hostname) ls.
Proof.
  induction ls as [|l ls IH]; [done|]. simpl.
  intros [Hl Hls]%andb_true_iff.
  destruct (uncommented_commented hostname l Hl) as (-> & -> & ->).
  destruct (IH Hls) as (-> & -> & ->). done.
Qed.

(** X3: on a consistent editor whose lines with the hostname are all active
    and not indented, a confirmed [comment_entry] followed by a confirmed
    [uncomment_entry] gives back the baseline, and the file holds it again. *)
Theorem comment_then_uncomment hostname answer answer' w :
  consistent w ->
  plain_matches hostname (w_lines w) = true ->
  lower (strip answer) = str "y" -> lower (strip answer') = str "y" ->
  let w' := uncomment_entry hostname answer' (comment_entry hostname answer w) in
  w_lines w' = w_lines w /\ _read_file w' = w_lines w.
Proof.
  intros [Hone Hread] Hp Hy Hy'.
  destruct (uncomment_after_comment _ _ Hp) as (Hmap & Hdis & Hact).
  unfold comment_entry. rewrite comment_lines_map, Hact.
  destruct (existsb (contains hostname) (w_lines w)) eqn:E.
  - assert (existsb (active_match hostname) (w_lines w) = true) as Ha by congruence.
    pose proof (commented_changes _ _ Ha) as Hd.
    assert (w_lines w <> []) as Hne by (destruct (w_lines w); done).
    assert (map (commented hostname) (w_lines w) <> []) as Hne'.
    { destruct (w_lines w); [done | discriminate]. }
    rewrite write_file_confirmed by (rewrite ?or_lines_nonempty; done).
    rewrite or_lines_nonempty by done.
    unfold uncomment_entry. simpl w_lines.
    rewrite uncomment_lines_map, Hmap, Hdis.
    rewrite write_file_confirmed by (rewrite ?or_lines_nonempty; simpl; done).
    rewrite or_lines_nonempty by done. simpl. split; [done|].
    unfold _read_file. simpl. by apply read_lines_file_text.
  - unfold uncomment_entry. simpl w_lines. rewrite uncomment_lines_map.
    assert (existsb (disabled_match hostname) (w_lines w) = false) as ->.
    { apply not_true_is_false. intros (l & Hin & Hl)%existsb_exists.
      apply andb_true_iff in Hl as [Hl _].
      assert (existsb (contains hostname) (w_lines w) = true)
        by (apply existsb_exists; eauto).
      congruence. }
    done.
Qed.

End Comment_documents.

Lemma comment_entry_twice_witness :
  comment_entry (str "example.com") (str "n")
    (comment_entry (str "example.com") (str "y") (loaded work_doc))
  = emit (EvPrint (MsgNoActiveEntry (str "example.com")))
      (comment_entry (str "example.com") (str "y") (loaded work_doc)).
Proof. apply comment_entry_twice. reflexivity. Defined.

Lemma comment_then_uncomment_witness :
  w_lines (uncomment_entry (str "localhost") (str "y")
             (comment_entry (str "localhost") (str "y") (loaded [localhost_line; app_line])))
  = [localhost_line; app_line].
Proof.
  apply (comment_then_uncomment (str "localhost") (str "y") (str "y")
           (loaded [localhost_line; app_line])); try reflexivity.
  split; reflexivity.
Defined.

(** ** delete_entry on whole documents *)

Section Delete_documents.
Context `{UC : UnicodeCase}.
Implicit Types (w : world) (hostname answer ip : pystr) (ls : list pystr).

Lemma kept_no_match hostname ls :
  forallb (fun l => negb (contains hostname l)) (kept hostname ls) = true.
Proof.
  unfold kept. induction ls as [|l ls IH]; [done|].
  rewrite filter_cons. destruct (contains hostname l) eqn:E; simpl; [done|].
  by rewrite E, IH.
Qed.

Lemma kept_one_line hostname ls :
  forallb one_line ls = true -> forallb one_line (kept hostname ls) = true.
Proof.
  unfold kept. induction ls as [|l ls IH]; [done|]. simpl.
  intros [Hl Hls]%andb_true_iff. rewrite filter_cons.
  destruct (negb (contains hostname l)); simpl; [rewrite Hl|]; by apply IH.
Qed.


(** X5: when some line holds the hostname and some line does not, a
    confirmed [delete_entry] leaves as baseline the lines without the
    hostname, in their order; none of them holds the hostname; the file holds
    them, one per line, and the backup holds what the file held before. *)
Theorem delete_entry_removes_matches hostname answer w :
  existsb (contains hostname) (w_lines w) = true ->
  kept hostname (w_lines w) <> [] ->
  lower (strip answer) = str "y" ->
  let w' := delete_entry hostname answer w in
  w_lines w' = kept hostname (w_lines w)
  /\ existsb (contains hostname) (w_lines w') = false
  /\ sublist (w_lines w') (w_lines w)
  /\ w_file w' = file_text (w_lines w')
  /\ w_backup w' = Some (w_file w).
Proof.
  intros Hex Hne Hy. rewrite delete_entry_commits by done. simpl.
  repeat split.
  - apply not_true_is_false. intros (l & Hin & Hl)%existsb_exists.
    pose proof (kept_no_match hostname (w_lines w)) as Hk.
    rewrite forallb_forall in Hk. specialize (Hk l Hin). by rewrite Hl in Hk.
  - apply sublist_filter.
Qed.

(** X6: after such a delete, deleting the same hostname again finds no
    entry. *)
Theorem delete_entry_twice hostname answer answer' w :
  kept hostname (w_lines w) <> [] ->
  lower (strip answer) = str "y" ->
  delete_entry hostname answer' (delete_entry hostname answer w)
  = emit (EvPrint (MsgNoEntryFound hostname)) (delete_entry hostname answer w).
Proof.
  intros Hne Hy.
  destruct (existsb (contains hostname) (w_lines w)) eqn:Hex.
  - rewrite (delete_entry_commits hostname answer w) by done.
    apply delete_entry_no_match. simpl. apply kept_no_match.
  - assert (forallb (fun l => negb (contains hostname l)) (w_lines w) = true) as Hno.
    { apply forallb_forall. intros l Hl. apply negb_true_iff.
      apply not_true_is_false. intros Hc.
      assert (existsb (contains hostname) (w_lines w) = true)
        by (apply existsb_exists; eauto).
      congruence. }
    rewrite (delete_entry_no_match hostname answer w) by done.
    by apply delete_entry_no_match.
Qed.

Lemma new_entry_contains ip hostname comment :
  contains hostname (new_entry ip hostname comment) = true.
Proof.
  apply contains_spec. unfold new_entry.
  destruct comment as [[|c cs]|].
  - exists (ip ++ [TAB]), []. by rewrite app_nil_r, <- app_assoc.
  - exists (ip ++ [TAB]), (str "  # " ++ c :: cs). by rewrite <- !app_assoc.
  - exists (ip ++ [TAB]), []. by rewrite app_nil_r, <- app_assoc.
Qed.

End Delete_documents.


Lemma delete_entry_removes_matches_witness :
  w_lines (delete_entry (str "app.test") (str "y") (loaded [localhost_line; app_line]))
  = [localhost_line].
Proof.
  apply (delete_entry_removes_matches (str "app.test") (str "y")
           (loaded [localhost_line; app_line])); [reflexivity | discriminate | reflexivity].
Defined.

Lemma delete_entry_twice_witness :
  delete_entry (str "app.test") (str "y")
    (delete_entry (str "app.test") (str "y") (loaded [localhost_line; app_line]))
  = emit (EvPrint (MsgNoEntryFound (str "app.test")))
      (delete_entry (str "app.test") (str "y") (loaded [localhost_line; app_line])).
Proof. apply delete_entry_twice; [discriminate | reflexivity]. Defined.

(** ** search_entries and list_entries *)

Section Search_documents.
Implicit Types (w : world) (q line : pystr) (ls : list pystr) (es : list event).

Lemma after_events_emit e es w : after_events es (emit e w) = after_events (e :: es) w.
Proof. unfold after_events, emit. simpl. by rewrite <- app_assoc. Qed.

Lemma after_events_nil w : after_events [] w = w.
Proof. destruct w. unfold after_events. simpl. by rewrite app_nil_r. Qed.

Lemma numbered_cons i line ls : numbered i (line :: ls) = (i, line) :: numbered (S i) ls.
Proof.
  unfold numbered. rewrite imap_cons. f_equal; [f_equal; lia|].
  apply imap_ext. intros k l _. simpl. f_equal. lia.
Qed.

(** The events of the hits among [ls], numbered from [i]. *)
Lemma search_loop_hits q i ls (found : bool) w :
  search_loop (Some q) i ls found w
  = inr (found || existsb (contains q) ls,
         after_events
           (map (fun p => EvPrint (MsgSearchHit p.1 p.2))
                (filter (fun p => contains q p.2) (numbered i ls))) w).
Proof.
  revert i found w. induction ls as [|l ls IH]; intros i found w.
  - simpl. by rewrite orb_false_r, after_events_nil.
  - cbn [search_loop py_in existsb]. rewrite numbered_cons, filter_cons. simpl.
    destruct (contains q l) eqn:E; simpl.
    + rewrite IH, after_events_emit. by rewrite orb_true_r.
    + by rewrite IH.
Qed.

Lemma list_entries_from_numbered i ls w :
  list_entries_from i ls w
  = after_events (map (fun p => EvPrint (MsgSearchHit p.1 p.2)) (numbered i ls)) w.
Proof.
  revert i w. induction ls as [|l ls IH]; intros i w; cbn [list_entries_from].
  - by rewrite after_events_nil.
  - by rewrite IH, after_events_emit, numbered_cons.
Qed.

Lemma filter_all_pairs q i ls :
  (forall l, l ∈ ls -> contains q l = true) ->
  filter (fun p : nat * pystr => contains q p.2) (numbered i ls) = numbered i ls.
Proof.
  revert i. induction ls as [|l ls IH]; intros i Hall; [done|].
  rewrite numbered_cons, filter_cons. simpl.
  rewrite Hall by left. simpl. f_equal. apply IH. intros l' Hl'. apply Hall. by right.
Qed.


(** X9: the empty query is a substring of every line, so on a document with
    at least one line [search_entries("")] prints what [list_entries] prints:
    every line with its number. *)
Theorem search_empty_query_lists_everything w :
  w_lines w <> [] ->
  search_entries (Some []) w = Returned (list_entries w).
Proof.
  intros Hne. unfold search_entries, list_entries.
  rewrite search_loop_hits, list_entries_from_numbered.
  rewrite filter_all_pairs by (intros l _; by destruct l).
  destruct (w_lines w) as [|l ls] eqn:E; [done|]. by destruct l.
Qed.

End Search_documents.

Lemma search_empty_query_lists_everything_witness :
  search_entries (Some []) (loaded work_doc) = Returned (list_entries (loaded work_doc)).
Proof. apply search_empty_query_lists_everything. discriminate. Defined.

(** ** list_sections on whole documents *)

Section Sections.
Context `{UC : UnicodeCase}.
Implicit Types (sc : scan) (line name : pystr) (ls body : list pystr).

(** The name [list_sections] reads in a header line. *)
Definition header_name line : pystr := strip (strip_hash (strip line)).

(** A section is open: [current_section] is a non-empty string. *)
Definition section_open sc : bool := from_option truthy false (current_section sc).

Lemma upper_header_spec line :
  upper_header line
  = header_form (strip line) && (truthy (header_name line) && isupper (header_name line)).
Proof. unfold upper_header, header_name. by rewrite andb_assoc. Qed.

Lemma step_idle sc line :
  section_open sc = false -> upper_header line = false ->
  list_sections_step sc line = sc.
Proof.
  unfold section_open. rewrite upper_header_spec. unfold header_name.
  intros Ho Hu. unfold list_sections_step.
  destruct (header_form (strip line)); simpl in Hu.
  - cbv zeta. by rewrite Hu.
  - destruct (startswith [HASH] (strip line) && _); [|done].
    cbv zeta. by rewrite Ho, andb_false_r.
Qed.

Lemma step_header sc line :
  upper_header line = true ->
  list_sections_step sc line
  = if section_open sc
    then Scan (sections sc ++ [(default [] (current_section sc), current_sites sc)])
           (Some (header_name line)) []
    else Scan (sections sc) (Some (header_name line)) (current_sites sc).
Proof.
  rewrite upper_header_spec. unfold header_name, section_open.
  intros [Hh Hu]%andb_true_iff. unfold list_sections_step.
  rewrite Hh. cbv zeta. rewrite Hu.
  by destruct (current_section sc) as [[|c cs]|].
Qed.

Lemma step_open sc line :
  section_open (list_sections_step sc line) = section_open sc || upper_header line.
Proof.
  destruct (upper_header line) eqn:Hu.
  - rewrite step_header by done. rewrite orb_true_r.
    apply andb_true_iff in Hu as [[_ Ht]%andb_true_iff _].
    by destruct (section_open sc).
  - rewrite orb_false_r. destruct (section_open sc) eqn:Ho.
    + unfold list_sections_step.
      rewrite upper_header_spec in Hu. unfold header_name in Hu.
      destruct (header_form (strip line)); simpl in Hu.
      * cbv zeta. by rewrite Hu.
      * destruct (startswith [HASH] (strip line) && _); [|done].
        cbv zeta. by destruct (truthy _ && _ && _).
    + by rewrite step_idle.
Qed.

Lemma fold_open ls sc :
  section_open (foldl list_sections_step sc ls)
  = section_open sc || existsb upper_header ls.
Proof.
  revert sc. induction ls as [|l ls IH]; intros sc; simpl.
  - by rewrite orb_false_r.
  - by rewrite IH, step_open, orb_assoc.
Qed.

Lemma fold_idle ls sc :
  section_open sc = false -> existsb upper_header ls = false ->
  foldl list_sections_step sc ls = sc.
Proof.
  revert sc. induction ls as [|l ls IH]; intros sc Ho Hex; [done|].
  simpl in *. apply orb_false_iff in Hex as [Hl Hls].
  rewrite step_idle by done. by apply IH.
Qed.

Lemma omap_cons_match {A B} (f : A -> option B) (x : A) (l : list A) :
  omap f (x :: l) = match f x with Some y => y :: omap f l | None => omap f l end.
Proof. reflexivity. Qed.

(** Within a section, lines that are not of the header form add their sites. *)
Lemma fold_body body sc :
  section_open sc = true ->
  forallb (fun l => negb (header_form (strip l))) body = true ->
  foldl list_sections_step sc body
  = Scan (sections sc) (current_section sc)
      (current_sites sc ++ omap (fun l => listed_site (strip l)) body).
Proof.
  revert sc. induction body as [|l body IH]; intros sc Ho Hb.
  - simpl. rewrite app_nil_r. by destruct sc.
  - simpl in Hb. apply andb_true_iff in Hb as [Hl Hb]. apply negb_true_iff in Hl.
    unfold section_open in Ho.
    destruct (current_section sc) as [[|c cs]|] eqn:Hc; try done.
    cbn [foldl]. rewrite (list_sections_step_site sc l c cs), omap_cons_match by done.
    destruct (listed_site (strip l)) as [site_name|].
    + rewrite IH by (by rewrite ?Hc). simpl. by rewrite Hc, <- app_assoc.
    + rewrite IH; [by rewrite Hc | unfold section_open; by rewrite Hc | done].
Qed.

(** X10: [list_sections] reports that there are no sections exactly when no
    line of the document, stripped, has the form [#...#] of more than two
    characters around a non-empty upper-case name; lines in lower case or of
    other forms never open a section. *)
Theorem no_sections_iff w :
  list_sections w = emit (EvPrint MsgNoSectionsFound) w
  <-> existsb upper_header (w_lines w) = false.
Proof.
  unfold list_sections, scan_sections. cbv zeta.
  pose proof (fold_open (w_lines w) (Scan [] None [])) as Ho. simpl in Ho.
  destruct (existsb upper_header (w_lines w)) eqn:Hex.
  - unfold section_open in Ho.
    destruct (current_section _) as [[|c cs]|]; try done.
    split; [|done].
    destruct (sections _); simpl; intros H; unfold emit in H;
      injection H as H; by apply app_inv_head in H.
  - by rewrite fold_idle.
Qed.

(** X11: in a document whose first upper-case header is followed, up to the
    end, by lines that are not of the header form, [list_sections] shows one
    section, under the name between the hashes, with the site comments below
    the header in their order; what stands above the header is ignored. *)
Theorem one_section_listed above header body :
  existsb upper_header above = false ->
  upper_header header = true ->
  forallb (fun l => negb (header_form (strip l))) body = true ->
  scan_sections (above ++ header :: body)
  = [(header_name header, omap (fun l => listed_site (strip l)) body)].
Proof.
  intros Ha Hh Hb. unfold scan_sections. cbv zeta.
  rewrite foldl_app. rewrite (fold_idle above (Scan [] None [])); [|reflexivity|done].
  cbn [foldl].
  rewrite step_header by done. simpl.
  assert (truthy (header_name header) = true) as Ht.
  { rewrite upper_header_spec in Hh.
    by apply andb_true_iff in Hh as [_ [? _]%andb_true_iff]. }
  rewrite fold_body by done. simpl.
  by destruct (header_name header).
Qed.

End Sections.

Lemma no_sections_iff_witness :
  list_sections (loaded [localhost_line; str "# notes"; str "# work #"])
  = emit (EvPrint MsgNoSectionsFound)
      (loaded [localhost_line; str "# notes"; str "# work #"]).
Proof. apply no_sections_iff. reflexivity. Defined.

Lemma one_section_listed_witness :
  scan_sections ([localhost_line; str "# stray.test"]
                 ++ str "# WORK #" :: [str "# example.com"; example_line; str "## note"])
  = [(str "WORK", [str "example.com"])].
Proof.
  apply (one_section_listed [localhost_line; str "# stray.test"] (str "# WORK #")
           [str "# example.com"; example_line; str "## note"]); reflexivity.
Defined.

(** ** The walk of toggle_section *)

Section Walk.
Implicit Types (st : toggle_state) (site : option pystr) (line : pystr)
  (ls : list pystr).

Lemma forallb_lookup {A} (f : A -> bool) (l : list A) :
  forallb f l = true <-> forall i x, l !! i = Some x -> f x = true.
Proof.
  induction l as [|a l IH]; simpl.
  - split; [by intros _ i x | done].
  - rewrite andb_true_iff, IH. split.
    + intros [Ha Hl] [|i] x; simpl; [by intros [= <-] | by apply Hl].
    + intros H. split; [by apply (H 0) | intros i x Hx; by apply (H (S i))].
Qed.

(** What the walk keeps: the number of lines; every line before the place
    where it starts; and every other line, unless it is an entry line, which
    it may replace by its toggled form.  The count never goes down. *)
Lemma toggle_loop_inv site enable n idx st :
  length (new_lines (toggle_loop site enable n idx st)) = length (new_lines st)
  /\ (forall j line, new_lines st !! j = Some line ->
        new_lines (toggle_loop site enable n idx st) !! j = Some line
        \/ (idx <= j /\ exists new,
              new_lines (toggle_loop site enable n idx st) !! j = Some new
              /\ toggled enable line new))
  /\ updated st <= updated (toggle_loop site enable n idx st).
Proof.
  revert idx st. induction n as [|n IH]; intros idx st; [by eauto|].
  cbn [toggle_loop].
  destruct (new_lines st !! idx) as [line|] eqn:Hidx; [|by eauto].
  destruct (header_form (strip line)) eqn:Hh; [by eauto|].
  destruct (site_comment (strip line)) eqn:Hsc.
  { destruct (IH (S idx) (ToggleState (new_lines st) (updated st)
                            (Some (site_name_of (strip line))))) as (Hlen & Hl & Hu).
    split; [done|]. split; [|done].
    intros j l Hj. destruct (Hl j l Hj) as [?|(? & ?)]; [by left|right].
    split; [lia|done]. }
  rewrite orb_false_r. case_bool_decide as Hblank.
  { destruct (IH (S idx) st) as (Hlen & Hl & Hu). split; [done|]. split; [|done].
    intros j l Hj. destruct (Hl j l Hj) as [?|(? & ?)]; [by left|right].
    split; [lia|done]. }
  assert (forall st', new_lines st' = new_lines st -> updated st' = updated st ->
            length (new_lines (toggle_loop site enable n (S idx) st'))
            = length (new_lines st)
            /\ (forall j l, new_lines st !! j = Some l ->
                  new_lines (toggle_loop site enable n (S idx) st') !! j = Some l
                  \/ (idx <= j /\ exists new,
                        new_lines (toggle_loop site enable n (S idx) st') !! j = Some new
                        /\ toggled enable l new))
            /\ updated st <= updated (toggle_loop site enable n (S idx) st')) as Hskip.
  { intros st' Hnl Hup. destruct (IH (S idx) st') as (Hlen & Hl & Hu).
    rewrite Hnl, Hup in *. split; [done|]. split; [|done].
    intros j l Hj. destruct (Hl j l Hj) as [?|(? & ?)]; [by left|right].
    split; [lia|done]. }
  assert (forall v, toggled enable line v ->
            let st' := ToggleState (<[idx := v]> (new_lines st)) (updated st + 1)
                         (current_site st) in
            length (new_lines (toggle_loop site enable n (S idx) st'))
            = length (new_lines st)
            /\ (forall j l, new_lines st !! j = Some l ->
                  new_lines (toggle_loop site enable n (S idx) st') !! j = Some l
                  \/ (idx <= j /\ exists new,
                        new_lines (toggle_loop site enable n (S idx) st') !! j = Some new
                        /\ toggled enable l new))
            /\ updated st <= updated (toggle_loop site enable n (S idx) st')) as Hset.
  { intros v Hv st'. destruct (IH (S idx) st') as (Hlen & Hl & Hu).
    subst st'. simpl in *. rewrite length_insert in Hlen.
    split; [done|]. split; [|lia].
    intros j l Hj. destruct (decide (j = idx)) as [->|Hne].
    - assert (l = line) as -> by congruence.
      right. split; [done|]. exists v. split; [|done].
      destruct (Hl idx v) as [?|(? & _)]; [|done|lia].
      apply list_lookup_insert_eq. by eapply lookup_lt_Some.
    - destruct (Hl j l) as [?|(? & ?)]; [|by left|right; split; [lia|done]].
      by rewrite list_lookup_insert_ne. }
  destruct (site_selected site (current_site st)); [|by apply Hskip].
  destruct (enable && startswith [HASH] (strip line)) eqn:He.
  { apply andb_true_iff in He as [-> Hs]. by apply Hset. }
  destruct (negb enable && negb (startswith [HASH] (strip line))) eqn:Hd.
  { apply andb_true_iff in Hd as [->%negb_true_iff Hs%negb_true_iff]. by apply Hset. }
  by apply Hskip.
Qed.

(** When disabling, the count stays where it was exactly when no line was
    replaced. *)
Lemma disable_loop_count site n idx st :
  updated (toggle_loop site false n idx st) = updated st
  <-> new_lines (toggle_loop site false n idx st) = new_lines st.
Proof.
  revert idx st. induction n as [|n IH]; intros idx st; [done|].
  cbn [toggle_loop].
  destruct (new_lines st !! idx) as [line|] eqn:Hidx; [|done].
  destruct (header_form (strip line)); [done|].
  destruct (site_comment (strip line)).
  { apply (IH (S idx) (ToggleState (new_lines st) (updated st)
                         (Some (site_name_of (strip line))))). }
  rewrite orb_false_r. case_bool_decide; [by apply IH|].
  destruct (site_selected site (current_site st)); [|by apply IH].
  cbn [andb negb].
  destruct (startswith [HASH] (strip line)); cbn [negb]; [by apply IH|].
  set (st' := ToggleState _ _ _).
  destruct (toggle_loop_inv site false n (S idx) st') as (_ & Hl & Hu).
  subst st'. simpl in *. split; [lia|].
  intros Heq. destruct (Hl idx (str "# " ++ line)) as [Hk|(? & _)]; [| |lia].
  - apply list_lookup_insert_eq. by eapply lookup_lt_Some.
  - rewrite Heq, Hidx in Hk. injection Hk as Hk.
    apply (f_equal length) in Hk. simpl in Hk. lia.
Qed.

End Walk.

(** X12: the walk of [toggle_section] keeps the number of lines; it leaves
    the header and everything above it as they are; and each line below is
    either left as it is or is an entry line (not blank, not of the header
    form, not a site comment) replaced by [# ] and itself when disabling, or
    by itself without the leading hash and whitespace when enabling. *)
Theorem toggle_scan_frame (start_idx : nat) (site : option pystr) (enable : bool)
    (ls : list pystr) :
  length (new_lines (toggle_scan start_idx site enable ls)) = length ls
  /\ forall j line, ls !! j = Some line ->
       new_lines (toggle_scan start_idx site enable ls) !! j = Some line
       \/ (start_idx < j /\ exists new,
             new_lines (toggle_scan start_idx site enable ls) !! j = Some new
             /\ toggled enable line new).
Proof.
  unfold toggle_scan.
  destruct (toggle_loop_inv site enable (length ls - (start_idx + 1)) (start_idx + 1)
              (ToggleState ls 0 None)) as (Hlen & Hl & _).
  split; [done|]. intros j line Hj.
  destruct (Hl j line Hj) as [?|(? & ?)]; [by left|right]. split; [lia|done].
Qed.

(** X13: when disabling, the count of [toggle_section] is zero exactly when
    the walk has changed no line; so a disable that counts something always
    proposes a sequence that differs from the baseline. *)
Theorem disable_count_zero_iff_unchanged (start_idx : nat) (site : option pystr)
    (ls : list pystr) :
  updated (toggle_scan start_idx site false ls) = 0
  <-> new_lines (toggle_scan start_idx site false ls) = ls.
Proof. unfold toggle_scan. by rewrite disable_loop_count. Qed.

(** ** The baseline and the file stay in step *)

Section In_step.
Context `{UC : UnicodeCase}.
Implicit Types (w : world) (hostname answer line : pystr) (ls : list pystr).

Lemma consistent_emit e w : consistent w -> consistent (emit e w).
Proof. by intros [? ?]. Qed.

Lemma one_line_lstrip p line : one_line line = true -> one_line (lstrip_with p line) = true.
Proof.
  induction line as [|c l IH]; [done|]. simpl.
  intros [Hc Hl]%andb_true_iff. destruct (p c); [by apply IH|].
  simpl. by rewrite Hc, Hl.
Qed.

Lemma one_line_re_sub_hash line : one_line line = true -> one_line (re_sub_hash line) = true.
Proof.
  destruct line as [|c l]; [done|]. unfold re_sub_hash.
  destruct (c =? HASH)%N; [|done].
  simpl. intros [_ Hl]%andb_true_iff. by apply one_line_lstrip.
Qed.

Lemma one_line_commented hostname line :
  one_line line = true -> one_line (commented hostname line) = true.
Proof. unfold commented. by destruct (active_match hostname line). Qed.

Lemma one_line_uncommented hostname line :
  one_line line = true -> one_line (uncommented hostname line) = true.
Proof.
  unfold uncommented. destruct (disabled_match hostname line); [|done].
  apply one_line_re_sub_hash.
Qed.

Lemma one_line_map (f : pystr -> pystr) ls :
  (forall l, one_line l = true -> one_line (f l) = true) ->
  forallb one_line ls = true -> forallb one_line (map f ls) = true.
Proof.
  intros Hf. induction ls as [|l ls IH]; [done|]. simpl.
  intros [Hl Hls]%andb_true_iff. by rewrite Hf, IH.
Qed.

Lemma one_line_toggled enable old new :
  toggled enable old new -> one_line old = true -> one_line new = true.
Proof.
  intros (-> & _) Hold. destruct enable; [by apply one_line_re_sub_hash | done].
Qed.

Lemma one_line_toggle_scan start_idx site enable ls :
  forallb one_line ls = true ->
  forallb one_line (new_lines (toggle_scan start_idx site enable ls)) = true.
Proof.
  intros Hls. unfold toggle_scan.
  destruct (toggle_loop_inv site enable (length ls - (start_idx + 1)) (start_idx + 1)
              (ToggleState ls 0 None)) as (Hlen & Hl & _).
  simpl in *. apply forallb_lookup. intros j new Hj.
  assert (is_Some (ls !! j)) as [old Hold].
  { apply lookup_lt_is_Some. rewrite <- Hlen. by eapply lookup_lt_Some. }
  pose proof (proj1 (forallb_lookup one_line ls) Hls j old Hold) as Ho.
  destruct (Hl j old Hold) as [H|(_ & new' & H & Ht)]; rewrite Hj in H;
    injection H as ->; [done | by eapply one_line_toggled].
Qed.

(** X14: [delete_entry], [comment_entry], [uncomment_entry] and
    [toggle_section] keep the baseline and the file in step: if the baseline
    consists of one-line strings and is what loading the file would give,
    the same holds after the call, whatever is answered at the prompt. *)
Theorem edits_keep_consistent hostname section site enable answer w :
  consistent w ->
  consistent (delete_entry hostname answer w)
  /\ consistent (comment_entry hostname answer w)
  /\ consistent (uncomment_entry hostname answer w)
  /\ consistent (toggle_section section site enable answer w).2.
Proof.
  intros Hw. pose proof Hw as [Hone _]. split; [|split; [|split]].
  - unfold delete_entry. fold (kept hostname (w_lines w)).
    case_bool_decide; [by apply consistent_emit|].
    apply write_file_consistent; [by apply kept_one_line | done].
  - unfold comment_entry. rewrite comment_lines_map.
    destruct (existsb _ _); [|by apply consistent_emit].
    apply write_file_consistent; [|done].
    apply one_line_map; [apply one_line_commented | done].
  - unfold uncomment_entry. rewrite uncomment_lines_map.
    destruct (existsb _ _); [|by apply consistent_emit].
    apply write_file_consistent; [|done].
    apply one_line_map; [apply one_line_uncommented | done].
  - unfold toggle_section.
    destruct (find_start_from section 0 (w_lines w)) as [start_idx|];
      [|by apply consistent_emit].
    cbv zeta. destruct (negb _).
    + apply write_file_consistent; [by apply one_line_toggle_scan | done].
    + destruct site as [[|c cs]|]; by apply consistent_emit.
Qed.

End In_step.

Lemma edits_keep_consistent_witness :
  consistent (delete_entry (str "example.com") (str "y") (loaded work_doc)).
Proof.
  apply (edits_keep_consistent (str "example.com") (str "work") None false (str "y")
           (loaded work_doc)).
  split; reflexivity.
Defined.

(** ** add_entry on whole documents *)

Section Add_documents.
Context `{UC : UnicodeCase}.
Implicit Types (w : world) (section ip hostname answer : pystr)
  (comment : option pystr) (ls : list pystr).


Lemma add_entry_lines_new ip hostname section comment w :
  section <> [] -> _find_section_index section w = None ->
  add_entry_lines ip hostname (Some section) comment w
  = w_lines w ++ [LF :: str "# " ++ section; new_entry ip hostname comment].
Proof.
  intros Hs Hf. unfold add_entry_lines. destruct section as [|c cs]; [done|].
  rewrite Hf. by rewrite <- app_assoc.
Qed.

Lemma add_entry_lines_found ip hostname section comment w idx :
  section <> [] -> _find_section_index section w = Some idx ->
  add_entry_lines ip hostname (Some section) comment w
  = list_insert_at (idx + 1) (new_entry ip hostname comment) (w_lines w).
Proof.
  intros Hs Hf. unfold add_entry_lines. destruct section as [|c cs]; [done|].
  by rewrite Hf.
Qed.



Lemma rstrip_with_snoc (p : N -> bool) (l : pystr) (c : N) :
  p c = false -> rstrip_with p (l ++ [c]) = l ++ [c].
Proof.
  intros Hc. unfold rstrip_with. rewrite reverse_snoc. simpl. rewrite Hc.
  by rewrite reverse_cons, reverse_involutive.
Qed.

(** The element [add_entry] appends for a new section is taken for its
    header, when the name does not end in whitespace. *)
Lemma new_header_names_section body c :
  isspace c = false ->
  names_section (body ++ [c]) (LF :: str "# " ++ body ++ [c]).
Proof.
  intros Hc. unfold names_section. f_equal.
  change (str "# " ++ body ++ [c]) with ((HASH :: SPACE :: body) ++ [c]).
  unfold strip, strip_with.
  change (lstrip_with isspace (LF :: (HASH :: SPACE :: body) ++ [c]))
    with ((HASH :: SPACE :: body) ++ [c]).
  by apply rstrip_with_snoc.
Qed.

Lemma find_section_from_app section i before header after :
  Forall (fun l => ~ names_section section l) before ->
  names_section section header ->
  find_section_from section i (before ++ header :: after) = Some (i + length before).
Proof.
  revert i. induction before as [|l before IH]; intros i Hb Hh; simpl.
  - rewrite bool_decide_eq_true_2 by done. f_equal. lia.
  - apply Forall_cons in Hb as [Hl Hb].
    rewrite bool_decide_eq_false_2 by done. rewrite IH by done. f_equal. lia.
Qed.

End Add_documents.


(** * The commit workflow with a write that can fail *)

Section Raising_commit.
Context `{UC : UnicodeCase} `{LE : LocaleEncoding}.
Implicit Types (w : world) (new : option (list pystr)) (answer : pystr)
  (ls : list pystr).

(** Where no write is made, or the text can be encoded, the call returns,
    and it returns what [_write_file] describes. *)
Lemma write_file_raising_returns new answer w :
  or_lines new w = w_lines w \/ lower (strip answer) <> str "y"
  \/ encodable (file_text (or_lines new w)) = true ->
  _write_file_raising new answer w = Returned (_write_file new answer w).
Proof.
  intros Hcase. unfold _write_file_raising, _write_file, _show_diff.
  case_bool_decide as Heq; [done|]. simpl.
  case_bool_decide as Hy; [|done]. simpl.
  destruct Hcase as [?|[?|He]]; [congruence | done |].
  unfold write_text_raising. by rewrite He.
Qed.

Lemma write_file_raising_confirmed new answer w :
  or_lines new w <> w_lines w -> lower (strip answer) = str "y" ->
  encodable (file_text (or_lines new w)) = true ->
  _write_file_raising new answer w
  = Returned (World (w_path w) (or_lines new w) (file_text (or_lines new w))
                (Some (w_file w)) (commit_trace (w_trace w) w (or_lines new w))).
Proof.
  intros Hd Hy He. rewrite write_file_raising_returns by auto.
  by rewrite write_file_confirmed.
Qed.

(** The text cannot be encoded: the copy has been made, the file is empty,
    and the exception leaves [_write_file] before the baseline is set. *)
Lemma write_file_raising_fails new answer w :
  or_lines new w <> w_lines w -> lower (strip answer) = str "y" ->
  encodable (file_text (or_lines new w)) = false ->
  _write_file_raising new answer w
  = Raised UnicodeEncodeError
      (World (w_path w) (w_lines w) [] (Some (w_file w))
         (w_trace w ++ [EvPrint (MsgProposedChanges (w_lines w) (or_lines new w));
                        EvInput; EvCopy2 (w_path w) (backup_path w)])).
Proof.
  intros Hd Hy He. unfold _write_file_raising, _show_diff.
  rewrite bool_decide_eq_false_2 by congruence. simpl.
  rewrite bool_decide_eq_true_2 by done. simpl.
  unfold write_text_raising. rewrite He. simpl.
  unfold backup_path. simpl. by rewrite <- !app_assoc.
Qed.

(** C8, amended: the commit workflow returns without touching the file, the
    backup or the baseline when the proposal (after [new_lines or self.lines])
    equals the baseline or the answer is not a yes.  On a yes to a proposal
    that differs the copy is made before the file is opened for writing;
    then, if the new text can be encoded, the file holds it, the backup holds
    the text the file had, and the baseline is the new sequence; if it cannot,
    [UnicodeEncodeError] is raised with the file empty, the backup holding
    the text the file had, and the baseline as it was. *)
Theorem commit_workflow new answer w :
  (or_lines new w = w_lines w \/ lower (strip answer) <> str "y" ->
     exists w',
       _write_file_raising new answer w = Returned w'
       /\ same_state w w'
       /\ Forall (fun e => match e with EvCopy2 _ _ | EvWriteText _ _ => False | _ => True end)
            (drop (length (w_trace w)) (w_trace w')))
  /\ (or_lines new w <> w_lines w -> lower (strip answer) = str "y" ->
      if encodable (file_text (or_lines new w))
      then exists w',
             _write_file_raising new answer w = Returned w'
             /\ new = Some (w_lines w')
             /\ w_backup w' = Some (w_file w)
             /\ w_file w' = file_text (w_lines w')
             /\ w_path w' = w_path w
             /\ w_trace w' = commit_trace (w_trace w) w (w_lines w')
      else exists w',
             _write_file_raising new answer w = Raised UnicodeEncodeError w'
             /\ w_lines w' = w_lines w
             /\ w_backup w' = Some (w_file w)
             /\ w_file w' = []
             /\ w_path w' = w_path w
             /\ w_trace w'
                = w_trace w ++ [EvPrint (MsgProposedChanges (w_lines w) (or_lines new w));
                                EvInput; EvCopy2 (w_path w) (backup_path w)]).
Proof.
  split.
  - intros Hcase. rewrite write_file_raising_returns by tauto.
    eexists. split; [done|].
    destruct (decide (or_lines new w = w_lines w)) as [Heq|Hne].
    + rewrite write_file_unchanged by done. split; [apply same_state_emit|].
      simpl. rewrite drop_app_length. by repeat constructor.
    + destruct Hcase as [?|Hans]; [done|].
      rewrite write_file_declined by done. split; [by repeat split|].
      simpl. rewrite <- !app_assoc, drop_app_length. by repeat constructor.
  - intros Hne Hans. destruct (encodable (file_text (or_lines new w))) eqn:He.
    + rewrite write_file_raising_confirmed by done. eexists. split; [done|].
      simpl. repeat split. destruct new as [[|l ls]|]; simpl in *; done.
    + rewrite write_file_raising_fails by done. eexists. by repeat split.
Qed.

(** C9, amended: a sequence of at least one line, none of which holds a line
    boundary character, and whose text can be encoded, is written by
    [write_text] as [file_text] without an exception, and [_read_file] then
    gives it back as it was. *)
Theorem write_then_reload ls w :
  ls <> [] -> forallb one_line ls = true -> encodable (file_text ls) = true ->
  exists w',
    write_text_raising (file_text ls) w = Returned w' /\ _read_file w' = ls.
Proof.
  intros Hne Hls He. unfold write_text_raising. rewrite He.
  eexists. split; [done|]. unfold _read_file. simpl.
  by apply read_lines_file_text.
Qed.

(** A text that cannot be encoded is not written: the call raises, and what
    is left to load is the empty file. *)
Lemma write_then_reload_fails ls w :
  encodable (file_text ls) = false ->
  exists w',
    write_text_raising (file_text ls) w = Raised UnicodeEncodeError w'
    /\ _read_file w' = [].
Proof.
  intros He. unfold write_text_raising. rewrite He. by eexists.
Qed.

End Raising_commit.

Lemma commit_workflow_witness :
  (exists w', _write_file_raising (Some work_doc) (str "y") (loaded work_doc) = Returned w'
              /\ same_state (loaded work_doc) w')
  /\ (exists w', _write_file_raising (Some dev_lines) (str " Y ") (loaded [localhost_line])
                 = Returned w'
                 /\ w_lines w' = dev_lines
                 /\ w_backup w' = Some (file_text [localhost_line]))
  /\ (exists w', _write_file_raising (Some [localhost_line; bad_line]) (str "y")
                   (loaded [localhost_line])
                 = Raised UnicodeEncodeError w'
                 /\ w_lines w' = [localhost_line] /\ w_file w' = []).
Proof.
  split; [|split].
  - destruct (commit_workflow (Some work_doc) (str "y") (loaded work_doc)) as [H _].
    destruct H as (w' & H1 & H2 & _); [left; reflexivity|]. by exists w'.
  - destruct (commit_workflow (Some dev_lines) (str " Y ") (loaded [localhost_line]))
      as [_ H].
    destruct H as (w' & H1 & H2 & H3 & _); [discriminate | reflexivity |].
    exists w'. repeat split; [done | by injection H2 | done].
  - destruct (commit_workflow (Some [localhost_line; bad_line]) (str "y")
                (loaded [localhost_line])) as [_ H].
    destruct H as (w' & H1 & H2 & _ & H4 & _); [discriminate | reflexivity |].
    by exists w'.
Defined.

(** C8 as stated fails when the new text cannot be encoded: the backup is
    made and the file is opened, which empties it, but the write raises, so
    the file does not hold the new lines and the baseline is not the new
    sequence. *)
Lemma commit_raises_on_surrogate :
  add_entry_lines (str "10.0.0.1") bad_hostname None None (loaded [localhost_line])
  = [localhost_line; bad_line]
  /\ _write_file_raising (Some [localhost_line; bad_line]) (str "y")
       (loaded [localhost_line])
     = Raised UnicodeEncodeError
         (World hosts_path [localhost_line] [] (Some (file_text [localhost_line]))
            [EvPrint (MsgProposedChanges [localhost_line] [localhost_line; bad_line]);
             EvInput; EvCopy2 hosts_path (hosts_path ++ str ".bak")])
  /\ [localhost_line] <> [localhost_line; bad_line].
Proof. by vm_compute. Qed.

Lemma write_then_reload_witness :
  exists w',
    write_text_raising (file_text work_doc) (loaded []) = Returned w'
    /\ _read_file w' = work_doc.
Proof. apply write_then_reload; [discriminate | reflexivity | reflexivity]. Defined.

(** * add_entry and delete_entry with a write that can fail *)

Section Raising_edits.
Context `{UC : UnicodeCase} `{LE : LocaleEncoding}.
Implicit Types (w : world) (ip hostname answer : pystr) (comment : option pystr)
  (ls : list pystr).

(** C6, amended: for a non-empty section name that neither
    [_find_section_index] nor the header search of [toggle_section] finds in
    the document, [add_entry] proposes the baseline followed by two elements,
    ["\n# SECTION"] and the entry.  In the text of the file these are an
    empty line, the line [# SECTION] and the entry line, after the lines of
    the baseline; and on a yes, when that text can be encoded, the call
    returns with exactly that text in the file and the proposed sequence as
    baseline. *)
Theorem add_entry_new_section ip hostname (section : pystr) comment answer w :
  section <> [] ->
  _find_section_index section w = None ->
  find_start_from section 0 (w_lines w) = None ->
  let entry := new_entry ip hostname comment in
  let header := str "# " ++ section in
  let new := w_lines w ++ [LF :: header; entry] in
  add_entry_lines ip hostname (Some section) comment w = new
  /\ file_text new
     = (if w_lines w is [] then [] else file_text (w_lines w))
       ++ [LF] ++ header ++ [LF] ++ entry ++ [LF]
  /\ file_text new = file_text (w_lines w ++ [[]; header; entry])
  /\ (lower (strip answer) = str "y" -> encodable (file_text new) = true ->
      add_entry_raising ip hostname (Some section) comment answer w
      = Returned
          (World (w_path w) new (file_text (w_lines w ++ [[]; header; entry]))
             (Some (w_file w)) (commit_trace (w_trace w) w new))).
Proof.
  intros Hs Hnf _ entry header new.
  pose proof (add_entry_lines_new ip hostname section comment w Hs Hnf) as Hlines.
  fold entry header new in Hlines.
  assert (file_text new = file_text (w_lines w ++ [[]; header; entry])) as Htext.
  { apply file_text_leading_LF. }
  assert (new <> []) as Hn by (subst new; by destruct (w_lines w)).
  assert (new <> w_lines w) as Hd.
  { intros Heq. apply (f_equal length) in Heq. subst new.
    rewrite length_app in Heq. simpl in Heq. lia. }
  split; [done|]. split; [|split; [done|]].
  - rewrite Htext. destruct (w_lines w) as [|l ls] eqn:E.
    + unfold file_text. simpl. by rewrite <- !app_assoc.
    + rewrite file_text_app by done. f_equal.
      unfold file_text. simpl. by rewrite <- !app_assoc.
  - intros Hans He. unfold add_entry_raising. rewrite Hlines.
    rewrite write_file_raising_confirmed by (rewrite ?or_lines_nonempty; done).
    by rewrite or_lines_nonempty, Htext.
Qed.

(** X7: on a document that has lines, none of which holds the hostname, a
    confirmed [add_entry] without section followed by a confirmed
    [delete_entry] of that hostname both return, when the texts they write
    can be encoded, and give back the baseline; the file holds it, one line
    each. *)
Theorem add_then_delete ip hostname comment answer answer' w :
  w_lines w <> [] ->
  existsb (contains hostname) (w_lines w) = false ->
  lower (strip answer) = str "y" -> lower (strip answer') = str "y" ->
  encodable (file_text (w_lines w ++ [new_entry ip hostname comment])) = true ->
  encodable (file_text (w_lines w)) = true ->
  exists w',
    and_then (add_entry_raising ip hostname None comment answer w)
      (delete_entry_raising hostname answer') = Returned w'
    /\ w_lines w' = w_lines w /\ w_file w' = file_text (w_lines w).
Proof.
  intros Hne Hex Hy Hy' He He'.
  assert (kept hostname (w_lines w) = w_lines w) as Hk.
  { apply kept_all, forallb_forall. intros l Hl. apply negb_true_iff.
    apply not_true_is_false. intros Hc.
    assert (existsb (contains hostname) (w_lines w) = true)
      by (apply existsb_exists; eauto).
    congruence. }
  unfold add_entry_raising, add_entry_lines. cbv zeta.
  set (entry := new_entry ip hostname comment) in *.
  assert (w_lines w ++ [entry] <> w_lines w) as Hd.
  { intros H. apply (f_equal length) in H. rewrite length_app in H. simpl in H. lia. }
  assert (w_lines w ++ [entry] <> []) as Hn by (by destruct (w_lines w)).
  rewrite write_file_raising_confirmed by (rewrite ?or_lines_nonempty; done).
  rewrite or_lines_nonempty by done. cbn [and_then].
  assert (kept hostname (w_lines w ++ [entry]) = w_lines w) as Hk'.
  { unfold kept in *. rewrite filter_app, Hk, filter_cons.
    subst entry. rewrite new_entry_contains. simpl. by rewrite app_nil_r. }
  unfold delete_entry_raising. cbv zeta. cbn [w_lines].
  fold (kept hostname (w_lines w ++ [entry])). rewrite Hk'.
  rewrite bool_decide_eq_false_2 by done.
  rewrite write_file_raising_confirmed by (rewrite ?or_lines_nonempty; done).
  rewrite or_lines_nonempty by done. by eexists.
Qed.

(** X16: without a section name ([None] or the empty string) and on a yes,
    [add_entry] either returns, when the text can be encoded, with the entry
    as the last line of the baseline, the file holding the earlier lines and
    then the entry, each ended by a line feed, and the backup holding what
    the file held before; or it raises [UnicodeEncodeError], with the backup
    made, the file empty and the baseline as it was. *)
Theorem add_entry_without_section ip hostname (section : option pystr) comment answer w :
  from_option truthy false section = false ->
  lower (strip answer) = str "y" ->
  if encodable (file_text (w_lines w ++ [new_entry ip hostname comment]))
  then exists w',
         add_entry_raising ip hostname section comment answer w = Returned w'
         /\ w_lines w' = w_lines w ++ [new_entry ip hostname comment]
         /\ w_file w'
            = (if w_lines w is [] then [] else file_text (w_lines w))
              ++ new_entry ip hostname comment ++ [LF]
         /\ w_backup w' = Some (w_file w)
  else exists w',
         add_entry_raising ip hostname section comment answer w
         = Raised UnicodeEncodeError w'
         /\ w_lines w' = w_lines w
         /\ w_file w' = []
         /\ w_backup w' = Some (w_file w).
Proof.
  intros Hs Hy. unfold add_entry_raising.
  assert (add_entry_lines ip hostname section comment w
          = w_lines w ++ [new_entry ip hostname comment]) as ->.
  { unfold add_entry_lines. by destruct section as [[|c cs]|]. }
  set (entry := new_entry ip hostname comment).
  assert (w_lines w ++ [entry] <> w_lines w) as Hd.
  { intros H. apply (f_equal length) in H. rewrite length_app in H. simpl in H. lia. }
  assert (w_lines w ++ [entry] <> []) as Hn by (by destruct (w_lines w)).
  destruct (encodable (file_text (w_lines w ++ [entry]))) eqn:He.
  - rewrite write_file_raising_confirmed by (rewrite ?or_lines_nonempty; done).
    rewrite or_lines_nonempty by done. eexists. split; [done|]. simpl.
    repeat split. destruct (w_lines w) as [|l ls]; [done|].
    by rewrite file_text_app.
  - rewrite write_file_raising_fails by (rewrite ?or_lines_nonempty; done).
    eexists. by repeat split.
Qed.

(** X17: two confirmed calls of [add_entry] with the same new section name,
    one that does not end in whitespace, writing texts that can be encoded:
    both return; the first appends the header element and its entry; the
    second finds that header and puts its entry right below it, above the
    first entry. *)
Theorem add_entry_twice_new_section
    ip hostname comment ip' hostname' comment' body c answer answer' w :
  isspace c = false ->
  _find_section_index (body ++ [c]) w = None ->
  lower (strip answer) = str "y" -> lower (strip answer') = str "y" ->
  encodable (file_text (w_lines w ++ [LF :: str "# " ++ body ++ [c];
                                      new_entry ip hostname comment])) = true ->
  encodable (file_text (w_lines w ++ [LF :: str "# " ++ body ++ [c];
                                      new_entry ip' hostname' comment';
                                      new_entry ip hostname comment])) = true ->
  exists w',
    and_then (add_entry_raising ip hostname (Some (body ++ [c])) comment answer w)
      (add_entry_raising ip' hostname' (Some (body ++ [c])) comment' answer')
    = Returned w'
    /\ w_lines w'
       = w_lines w ++ [LF :: str "# " ++ body ++ [c];
                       new_entry ip' hostname' comment';
                       new_entry ip hostname comment].
Proof.
  intros Hc Hnf Hy Hy' He He'.
  set (section := body ++ [c]) in *.
  assert (section <> []) as Hs by (subst section; by destruct body).
  set (header := LF :: str "# " ++ section) in *.
  set (e := new_entry ip hostname comment) in *.
  set (e' := new_entry ip' hostname' comment') in *.
  unfold add_entry_raising at 1. rewrite add_entry_lines_new by done. fold e header.
  assert (w_lines w ++ [header; e] <> w_lines w) as Hd.
  { intros H. apply (f_equal length) in H. rewrite length_app in H. simpl in H. lia. }
  assert (w_lines w ++ [header; e] <> []) as Hn by (by destruct (w_lines w)).
  rewrite write_file_raising_confirmed by (rewrite ?or_lines_nonempty; done).
  rewrite or_lines_nonempty by done. cbn [and_then].
  set (w1 := World _ _ _ _ _).
  assert (_find_section_index section w1 = Some (length (w_lines w))) as Hf.
  { unfold _find_section_index. subst w1. simpl.
    rewrite find_section_from_app; [done| |by apply new_header_names_section].
    by apply find_section_from_None in Hnf. }
  unfold add_entry_raising. rewrite (add_entry_lines_found _ _ _ _ _ _ Hs Hf). fold e'.
  assert (list_insert_at (length (w_lines w) + 1) e' (w_lines w1)
          = w_lines w ++ [header; e'; e]) as Hins.
  { subst w1. simpl. unfold list_insert_at.
    replace (length (w_lines w) + 1) with (length (w_lines w ++ [header]))
      by (rewrite length_app; simpl; lia).
    change (w_lines w ++ [header; e]) with (w_lines w ++ [header] ++ [e]).
    rewrite app_assoc, take_app_length, drop_app_length.
    by rewrite <- app_assoc. }
  rewrite Hins.
  assert (w_lines w ++ [header; e'; e] <> w_lines w1) as Hd'.
  { subst w1. simpl. intros H. apply (f_equal length) in H.
    rewrite !length_app in H. simpl in H. lia. }
  assert (w_lines w ++ [header; e'; e] <> []) as Hn' by (by destruct (w_lines w)).
  rewrite write_file_raising_confirmed by (rewrite ?or_lines_nonempty; done).
  rewrite or_lines_nonempty by done. by eexists.
Qed.

End Raising_edits.

Lemma add_entry_new_section_witness :
  add_entry_raising (str "10.0.0.1") (str "app.test") (Some (str "DEV")) None (str "y")
    (loaded [localhost_line])
  = Returned
      (World hosts_path dev_lines
         (file_text [localhost_line; []; str "# DEV"; app_line])
         (Some (file_text [localhost_line]))
         (commit_trace [] (loaded [localhost_line]) dev_lines)).
Proof.
  pose proof (add_entry_new_section (str "10.0.0.1") (str "app.test") (str "DEV")
                None (str "y") (loaded [localhost_line])) as H.
  destruct H as (_ & _ & _ & H); [discriminate | reflexivity | reflexivity |].
  apply H; reflexivity.
Defined.

(** C6 as stated fails in three ways.  The line sequence gains two elements,
    the first with a line feed in it, not three lines.  In [staging_doc],
    which has no section at all, the comment [# staging] is taken for the
    header and the entry is put below it, with nothing appended.  And the
    block that was appended is no section for the rest of the editor: once
    loaded again, [list_sections] finds no section and [toggle_section] does
    not find DEV. *)
Lemma add_entry_new_section_differs :
  (add_entry_lines (str "10.0.0.1") (str "app.test") (Some (str "DEV")) None
     (loaded [localhost_line]) = [localhost_line; LF :: str "# DEV"; app_line]
   /\ [localhost_line; LF :: str "# DEV"; app_line]
      <> [localhost_line; []; str "# DEV"; app_line])
  /\ (scan_sections staging_doc = []
      /\ find_start_from (str "staging") 0 staging_doc = None
      /\ add_entry_lines (str "10.0.0.1") (str "app.test") (Some (str "staging")) None
           (loaded staging_doc) = [str "# staging"; app_line; localhost_line])
  /\ (read_lines (file_text [localhost_line; LF :: str "# DEV"; app_line])
      = [localhost_line; []; str "# DEV"; app_line]
      /\ scan_sections [localhost_line; []; str "# DEV"; app_line] = []
      /\ find_start_from (str "DEV") 0 [localhost_line; []; str "# DEV"; app_line] = None).
Proof. by vm_compute. Qed.

Lemma add_then_delete_witness :
  exists w',
    and_then (add_entry_raising (str "10.0.0.1") (str "app.test") None None (str "y")
                (loaded [localhost_line]))
      (delete_entry_raising (str "app.test") (str "y")) = Returned w'
    /\ w_lines w' = [localhost_line] /\ w_file w' = file_text [localhost_line].
Proof.
  apply (add_then_delete (str "10.0.0.1") (str "app.test") None (str "y") (str "y")
           (loaded [localhost_line])); [discriminate | reflexivity..].
Defined.

Lemma add_entry_without_section_witness :
  (exists w',
     add_entry_raising (str "10.0.0.1") (str "foo.test") None (Some (str "temp")) (str "y")
       (loaded [localhost_line]) = Returned w'
     /\ w_lines w' = [localhost_line; str "10.0.0.1" ++ [TAB] ++ str "foo.test  # temp"])
  /\ (exists w',
        add_entry_raising (str "10.0.0.1") bad_hostname None None (str "y")
          (loaded [localhost_line]) = Raised UnicodeEncodeError w'
        /\ w_lines w' = [localhost_line] /\ w_file w' = []).
Proof.
  split.
  - destruct (add_entry_without_section (str "10.0.0.1") (str "foo.test") None
                (Some (str "temp")) (str "y") (loaded [localhost_line]))
      as (w' & H1 & H2 & _); [reflexivity | reflexivity |].
    by exists w'.
  - destruct (add_entry_without_section (str "10.0.0.1") bad_hostname None
                None (str "y") (loaded [localhost_line]))
      as (w' & H1 & H2 & H3 & _); [reflexivity | reflexivity |].
    by exists w'.
Defined.

Lemma add_entry_twice_new_section_witness :
  exists w',
    and_then (add_entry_raising (str "10.0.0.1") (str "app.test") (Some (str "DEV")) None
                (str "y") (loaded [localhost_line]))
      (add_entry_raising (str "10.0.0.2") (str "api.test") (Some (str "DEV")) None (str "y"))
    = Returned w'
    /\ w_lines w'
       = [localhost_line; LF :: str "# DEV";
          str "10.0.0.2" ++ [TAB] ++ str "api.test"; app_line].
Proof.
  apply (add_entry_twice_new_section (str "10.0.0.1") (str "app.test") None
           (str "10.0.0.2") (str "api.test") None (str "DE") 86%N (str "y") (str "y")
           (loaded [localhost_line])); reflexivity.
Defined.
